(** * MyInfographic: the request pipeline of [server/index.js] and of the
      React client ([client/src/App.jsx], [client/src/api.js])

    The server is an Express application with four routes; the client is a
    four-step wizard whose [startProcess] chains three HTTP calls.  Both are
    embedded here as pure functions:

    - JavaScript values are the inductive type [Js.value]; truthiness,
      property reads, string conversion and [substring] follow ECMAScript.
      A [string] stands for a JavaScript string, one character per code
      unit; numbers are the integers.
    - Code that can throw returns [Js.result]; a handler additionally logs
      every call it makes to an outside service ([Server.M]).
    - Everything outside the repository (the PDF parser, the language
      model, the image service, [JSON.parse], [JSON.stringify], the process
      environment) is a field of [Server.World]; theorems quantify over it.
    - React state is the record [Client.State]; every setter call is one
      state update, and a run is the list of states it goes through. *)

From Stdlib Require Import String Ascii List ZArith Bool Lia DecimalString.
Set Warnings "-register-all".
Import ListNotations.
Local Open Scope string_scope.
Local Open Scope Z_scope.

(* ================================================================== *)
(** * JavaScript values                                                 *)
(* ================================================================== *)

Module Js.

(** A value as [JSON.parse] or a request body yields it, plus
    [undefined], the result of reading a property that is not there. *)
Inductive value : Type :=
| Undefined
| Null
| Bool (b : bool)
| Num (n : Z)
| Str (s : string)
| Arr (items : list value)
| Obj (props : list (string * value)).

(** A thrown object: its [message], and the [data] of its [response]
    when it is an axios error that carries an HTTP response. *)
Record exn : Type := Throw {
  message : string;
  response_data : option value
}.

Definition Error (msg : string) : exn := Throw msg None.

(** The outcome of an expression that may throw. *)
Inductive result (A : Type) : Type :=
| Ok (a : A)
| Thrown (e : exn).
Arguments Ok {A} a.
Arguments Thrown {A} e.

(** [ToBoolean]. *)
Definition truthy (v : value) : bool :=
  match v with
  | Undefined | Null => false
  | Bool b => b
  | Num n => negb (n =? 0)
  | Str s => negb (s =? "")%string
  | Arr _ | Obj _ => true
  end.

(** Own property of an object literal; the first binding of a key is the
    one in force. *)
Fixpoint lookup (k : string) (props : list (string * value)) : value :=
  match props with
  | [] => Undefined
  | (k', v) :: rest => if (k' =? k)%string then v else lookup k rest
  end.

(** [v.k] for the property names the program reads ([text], [prompt],
    [candidates], [content], [parts], [inlineData], [thought], [data],
    [imageUrl], ...): none of them is an array index or a member of a
    prototype, so only an object can have it; reading it from [undefined]
    or [null] throws a TypeError (V8's wording). *)
Definition get (v : value) (k : string) : result value :=
  match v with
  | Undefined =>
      Thrown (Error ("Cannot read properties of undefined (reading '" ++ k ++ "')"))
  | Null =>
      Thrown (Error ("Cannot read properties of null (reading '" ++ k ++ "')"))
  | Obj props => Ok (lookup k props)
  | Bool _ | Num _ | Str _ | Arr _ => Ok Undefined
  end.

(** [v[0]]. *)
Definition get0 (v : value) : result value :=
  match v with
  | Undefined =>
      Thrown (Error "Cannot read properties of undefined (reading '0')")
  | Null =>
      Thrown (Error "Cannot read properties of null (reading '0')")
  | Arr [] => Ok Undefined
  | Arr (x :: _) => Ok x
  | Str EmptyString => Ok Undefined
  | Str (String c _) => Ok (Str (String c EmptyString))
  | Obj props => Ok (lookup "0" props)
  | Bool _ | Num _ => Ok Undefined
  end.

Definition string_of_Z (n : Z) : string :=
  NilZero.string_of_int (Z.to_int n).

Fixpoint join (sep : string) (l : list string) : string :=
  match l with
  | [] => ""
  | [s] => s
  | s :: rest => s ++ sep ++ join sep rest
  end.

(** [ToString], as a template literal or [+] with a string applies it;
    an integer prints in decimal, which is JavaScript's form below 10^21. *)
Fixpoint to_string (v : value) : string :=
  match v with
  | Undefined => "undefined"
  | Null => "null"
  | Bool true => "true"
  | Bool false => "false"
  | Num n => string_of_Z n
  | Str s => s
  | Arr items =>
      join "," (map (fun x => match x with
                              | Undefined | Null => ""
                              | _ => to_string x
                              end) items)
  | Obj _ => "[object Object]"
  end.

(** [String.prototype.substring(start, end)] on integers: both bounds
    are clamped to [0 .. length] and swapped when out of order. *)
Definition substring (s : string) (i j : Z) : string :=
  let n := String.length s in
  let i := Nat.min (Z.to_nat i) n in
  let j := Nat.min (Z.to_nat j) n in
  String.substring (Nat.min i j) (Nat.max i j - Nat.min i j) s.

(** [text.substring(a, b)] as a method call: only a string has the
    method. *)
Definition call_substring (v : value) (i j : Z) : result string :=
  match v with
  | Str s => Ok (substring s i j)
  | Undefined =>
      Thrown (Error "Cannot read properties of undefined (reading 'substring')")
  | Null =>
      Thrown (Error "Cannot read properties of null (reading 'substring')")
  | _ => Thrown (Error "text.substring is not a function")
  end.

(** What [JSON.stringify] followed by [JSON.parse] leaves of a value:
    [undefined] properties are dropped, [undefined] array items become
    [null]. This is what a client receives of [res.json(v)]. *)
Fixpoint wire (v : value) : value :=
  match v with
  | Arr items =>
      Arr (map (fun x => match x with
                         | Undefined => Null
                         | _ => wire x
                         end) items)
  | Obj props =>
      Obj ((fix go (ps : list (string * value)) : list (string * value) :=
              match ps with
              | [] => []
              | (_, Undefined) :: rest => go rest
              | (k, x) :: rest => (k, wire x) :: go rest
              end) props)
  | _ => v
  end.

End Js.

(* ================================================================== *)
(** * JSON texts                                                        *)
(* ================================================================== *)

(** A reader and a writer of JSON texts over [Js.value]: [JSON.parse] and
    [JSON.stringify] on texts whose numbers are integers and whose strings
    have no [\u] escapes (the reader refuses the rest). The server takes
    both functions from its [World]; these are the ones the examples run
    with. *)
Module JsonText.
Import Js.

Definition is_ws (c : ascii) : bool :=
  let n := nat_of_ascii c in
  ((n =? 32) || (n =? 9) || (n =? 10) || (n =? 13))%nat.

Fixpoint skip_ws (s : string) : string :=
  match s with
  | String c rest => if is_ws c then skip_ws rest else s
  | EmptyString => s
  end.

Definition digit (c : ascii) : option Z :=
  let n := nat_of_ascii c in
  if ((48 <=? n) && (n <=? 57))%nat then Some (Z.of_nat n - 48) else None.

(** The digits at the head of [s], folded onto [acc]. *)
Fixpoint digits (acc : Z) (s : string) : Z * string :=
  match s with
  | String c rest =>
      match digit c with
      | Some d => digits (10 * acc + d) rest
      | None => (acc, s)
      end
  | EmptyString => (acc, s)
  end.

(** An integer without sign: one digit, and no leading zero before
    others; a fraction or an exponent after it is refused. *)
Definition natural (s : string) : option (Z * string) :=
  match s with
  | String c rest =>
      match digit c with
      | None => None
      | Some d =>
          let '(n, rest') := digits d rest in
          match rest, rest' with
          | String c' _, _ =>
              if (d =? 0) && (match digit c' with Some _ => true | None => false end)
              then None
              else match rest' with
                   | String c'' _ =>
                       if ((c'' =? ".") || (c'' =? "e") || (c'' =? "E"))%char
                       then None else Some (n, rest')
                   | EmptyString => Some (n, rest')
                   end
          | EmptyString, _ => Some (n, rest')
          end
      end
  | EmptyString => None
  end.

(** The characters of a string literal after its opening quote. *)
Fixpoint chars (s : string) : option (string * string) :=
  match s with
  | EmptyString => None
  | String c rest =>
      if (c =? ascii_of_nat 34)%char then Some (EmptyString, rest)
      else if (c =? "\")%char then
        match rest with
        | String e rest' =>
            let unescaped :=
              if (e =? ascii_of_nat 34)%char then Some e
              else if ((e =? "\") || (e =? "/"))%char then Some e
              else if (e =? "b")%char then Some (ascii_of_nat 8)
              else if (e =? "f")%char then Some (ascii_of_nat 12)
              else if (e =? "n")%char then Some (ascii_of_nat 10)
              else if (e =? "r")%char then Some (ascii_of_nat 13)
              else if (e =? "t")%char then Some (ascii_of_nat 9)
              else None in
            match unescaped, chars rest' with
            | Some u, Some (t, r) => Some (String u t, r)
            | _, _ => None
            end
        | EmptyString => None
        end
      else if (nat_of_ascii c <? 32)%nat then None
      else match chars rest with
           | Some (t, r) => Some (String c t, r)
           | None => None
           end
  end.

(** A later member replaces an earlier one of the same name. *)
Definition put (k : string) (v : value) (props : list (string * value))
  : list (string * value) :=
  (filter (fun kv => negb (fst kv =? k)%string) props ++ [(k, v)])%list.

Definition word (w : string) (v : value) (s : string) : option (value * string) :=
  if String.prefix w s
  then Some (v, String.substring (String.length w)
                  (String.length s - String.length w) s)
  else None.

(** A value at the head of [s], white space before it skipped. *)
Fixpoint element (fuel : nat) (s : string) : option (value * string) :=
  match fuel with
  | O => None
  | S fuel =>
      match skip_ws s with
      | EmptyString => None
      | String c rest as s' =>
          if (c =? "{")%char then
            match skip_ws rest with
            | String "}" r => Some (Obj [], r)
            | _ => members fuel [] rest
            end
          else if (c =? "[")%char then
            match skip_ws rest with
            | String "]" r => Some (Arr [], r)
            | _ => elements fuel [] rest
            end
          else if (c =? ascii_of_nat 34)%char then
            match chars rest with
            | Some (t, r) => Some (Str t, r)
            | None => None
            end
          else if (c =? "-")%char then
            match natural rest with
            | Some (n, r) => Some (Num (- n), r)
            | None => None
            end
          else if (c =? "t")%char then word "true" (Bool true) s'
          else if (c =? "f")%char then word "false" (Bool false) s'
          else if (c =? "n")%char then word "null" Null s'
          else match natural s' with
               | Some (n, r) => Some (Num n, r)
               | None => None
               end
      end
  end

(** The items of an array after its bracket, up to the closing one. *)
with elements (fuel : nat) (acc : list value) (s : string)
  : option (value * string) :=
  match fuel with
  | O => None
  | S fuel =>
      match element fuel s with
      | None => None
      | Some (v, r) =>
          match skip_ws r with
          | String "," r' => elements fuel (acc ++ [v])%list r'
          | String "]" r' => Some (Arr (acc ++ [v])%list, r')
          | _ => None
          end
      end
  end

(** The members of an object after its brace, up to the closing one. *)
with members (fuel : nat) (acc : list (string * value)) (s : string)
  : option (value * string) :=
  match fuel with
  | O => None
  | S fuel =>
      match skip_ws s with
      | String c rest =>
          if (c =? ascii_of_nat 34)%char then
            match chars rest with
            | None => None
            | Some (k, r) =>
                match skip_ws r with
                | String ":" r' =>
                    match element fuel r' with
                    | None => None
                    | Some (v, r'') =>
                        match skip_ws r'' with
                        | String "," r3 => members fuel (put k v acc) r3
                        | String "}" r3 => Some (Obj (put k v acc), r3)
                        | _ => None
                        end
                    end
                | _ => None
                end
            end
          else None
      | EmptyString => None
      end
  end.

(** [JSON.parse]: one value and nothing but white space after it. *)
Definition parse (s : string) : result value :=
  match element (2 * String.length s + 2) s with
  | Some (v, rest) =>
      match skip_ws rest with
      | EmptyString => Ok v
      | _ => Thrown (Error "Unexpected non-whitespace character after JSON")
      end
  | None => Thrown (Error "Unexpected token in JSON")
  end.

Definition hex (n : nat) : string :=
  String (if (n <? 10)%nat then ascii_of_nat (48 + n) else ascii_of_nat (87 + n))
         EmptyString.

(** A string between quotes, escaped as [JSON.stringify] does. *)
Fixpoint quoted (s : string) : string :=
  match s with
  | EmptyString => String (ascii_of_nat 34) EmptyString
  | String c rest =>
      let n := nat_of_ascii c in
      (if (n =? 34)%nat then String "\" (String c EmptyString)
       else if (n =? 92)%nat then "\\"
       else if (n =? 8)%nat then "\b"
       else if (n =? 12)%nat then "\f"
       else if (n =? 10)%nat then "\n"
       else if (n =? 13)%nat then "\r"
       else if (n =? 9)%nat then "\t"
       else if (n <? 32)%nat then "\u00" ++ hex (n / 16) ++ hex (n mod 16)
       else String c EmptyString) ++ quoted rest
  end.

(** [JSON.stringify(v)] where it yields a text. *)
Fixpoint text_of (v : value) : string :=
  match v with
  | Undefined => "null"
  | Null => "null"
  | Bool true => "true"
  | Bool false => "false"
  | Num n => string_of_Z n
  | Str s => String (ascii_of_nat 34) (quoted s)
  | Arr items => "[" ++ join "," (map text_of items) ++ "]"
  | Obj props =>
      "{" ++ join ","
               ((fix go (ps : list (string * value)) : list string :=
                   match ps with
                   | [] => []
                   | (_, Undefined) :: rest => go rest
                   | (k, x) :: rest =>
                       (String (ascii_of_nat 34) (quoted k) ++ ":" ++ text_of x)
                         :: go rest
                   end) props)
          ++ "}"
  end.

(** ['...' + JSON.stringify(v)] appends the word for [undefined]. *)
Definition stringify (v : value) : string :=
  match v with
  | Undefined => "undefined"
  | _ => text_of v
  end.

End JsonText.

(* ================================================================== *)
(** * The server: [server/index.js]                                     *)
(* ================================================================== *)

Module Server.
Import Js.

(** ** What the server talks to *)

(** The file multer hands to the route ([req.file]). *)
Record file : Type := File {
  mimetype : string;
  size : Z;               (* bytes *)
  buffer : string
}.

(** Everything outside the repository that the server reads or calls. *)
Record World : Type := {
  (** [process.env.LLM_API_KEY], [None] when the variable is not set *)
  LLM_API_KEY : option string;
  (** [process.env.NANO_BANANA_API_KEY] *)
  NANO_BANANA_API_KEY : option string;
  (** [pdfParse(buffer)], read at [.text] *)
  pdfParse : string -> result string;
  (** [model.generateContent(p)], read at [.response.text()] *)
  generateContent : string -> result string;
  (** [axios.post] to the image model with the key and the prompt: the
      [data] of a 2xx response, or the error axios throws *)
  image_post : value -> value -> result value;
  (** [JSON.parse] *)
  JSON_parse : string -> result value;
  (** [JSON.stringify], as the text that [+] appends *)
  JSON_stringify : value -> string
}.

Definition env_value (o : option string) : value :=
  match o with
  | Some s => Str s
  | None => Undefined
  end.

(** [a || b] *)
Definition or_else (a b : value) : value := if truthy a then a else b.

(** [const API_KEY = process.env.LLM_API_KEY || process.env.NANO_BANANA_API_KEY] *)
Definition API_KEY (w : World) : value :=
  or_else (env_value (LLM_API_KEY w)) (env_value (NANO_BANANA_API_KEY w)).

(** ** Handlers as logged, fallible computations *)

(** The console output of the handlers and the delays of the fallback
    branches ([setTimeout]) have no part in what is answered and are left
    out. *)

(** A call that leaves the process. *)
Inductive call : Type :=
| PdfParse (buffer : string)
| GenerateContent (prompt : string)
| ImagePost (key prompt : value).

(** A computation: the outside calls it made, in order, and its value or
    the error it threw. *)
Definition M (A : Type) : Type := (list call * result A)%type.

Definition ret {A} (a : A) : M A := ([], Ok a).
Definition throw {A} (e : exn) : M A := ([], Thrown e).
Definition lift {A} (r : result A) : M A := ([], r).

Definition bind {A B} (m : M A) (f : A -> M B) : M B :=
  match m with
  | (l, Ok a) => let (l', r) := f a in ((l ++ l')%list, r)
  | (l, Thrown e) => (l, Thrown e)
  end.

(** [try { m } catch (e) { h e }] *)
Definition try_catch {A} (m : M A) (h : exn -> M A) : M A :=
  match m with
  | (l, Ok a) => (l, Ok a)
  | (l, Thrown e) => let (l', r) := h e in ((l ++ l')%list, r)
  end.

Definition calls {A} (m : M A) : list call := fst m.
Definition outcome {A} (m : M A) : result A := snd m.

Declare Scope js_scope.
Delimit Scope js_scope with js.
Notation "x <- m ;; k" := (bind m (fun x => k))
  (at level 61, m at next level, right associativity) : js_scope.
Local Open Scope js_scope.

Definition call_pdfParse (w : World) (b : string) : M string :=
  ([PdfParse b], pdfParse w b).
Definition call_generateContent (w : World) (p : string) : M string :=
  ([GenerateContent p], generateContent w p).
Definition call_image_post (w : World) (key prompt : value) : M value :=
  ([ImagePost key prompt], image_post w key prompt).

(** ** Responses *)

Record response : Type := Response {
  status : Z;
  body : value
}.

(** [res.json(v)] and [res.status(n).json(v)] *)
Definition json (v : value) : response := Response 200 v.
Definition status_json (n : Z) (v : value) : response := Response n v.

(** ** Multer *)

(** [limits: { fileSize: 10 * 1024 * 1024 }], the 10MB limit *)
Definition limits_fileSize : Z := 10 * 1024 * 1024.

(** [fileFilter]: [cb(null, true)] for a PDF, [cb(new Error(...), false)]
    otherwise. *)
Definition fileFilter (f : file) : result bool :=
  if (mimetype f =? "application/pdf")%string
  then Ok true
  else Thrown (Error "Only PDF files are allowed!").

(** [upload.single('pdf')]: the filter sees the part's headers first; a
    file longer than the limit ends the request with multer's
    [LIMIT_FILE_SIZE] error. Either error goes to [next(err)]. *)
Definition upload_single (f : option file) : result (option file) :=
  match f with
  | None => Ok None
  | Some f =>
      match fileFilter f with
      | Thrown e => Thrown e
      | Ok false => Ok None
      | Ok true =>
          if limits_fileSize <? size f
          then Thrown (Error "File too large")
          else Ok (Some f)
      end
  end.

(** ** Routes *)

(** 0. [GET /api/status] *)
Definition status_route (w : World) : M response :=
  ret (json (Obj [("llm", Bool (truthy (API_KEY w)));
                  ("nanoBanana", Bool (truthy (API_KEY w)))])).

(** 1. [POST /api/upload] *)
Definition upload_route (w : World) (f : option file) : M response :=
  req_file <- lift (upload_single f) ;;
  try_catch
    (match req_file with
     | None => ret (status_json 400 (Obj [("error", Str "No file uploaded")]))
     | Some f =>
         text <- call_pdfParse w (buffer f) ;;
         ret (json (Obj [("text", Str text)]))
     end)
    (fun _ => ret (status_json 500 (Obj [("error", Str "Failed to parse PDF")]))).

(** *** 2. [POST /api/generate-prompt] *)

Definition nl : string := String (ascii_of_nat 10) EmptyString.
Definition dq : string := String (ascii_of_nat 34) EmptyString.

(** The template up to the place of the PDF text. *)
Definition systemPrompt_head : string :=
  nl ++
  "You are generating a prompt for Nano Banana Pro, an advanced AI that creates a single infographic summarizing a scientific PDF." ++ nl ++
  nl ++
  "INPUT DATA:" ++ nl ++
  "- PDF text: ".

(** The template after the last option. *)
Definition systemPrompt_task : string :=
  nl ++
  nl ++
  "TASK:" ++ nl ++
  "Create a complete Nano Banana Pro prompt that:" ++ nl ++
  "  - Summarizes the entire PDF into one infographic" ++ nl ++
  "  - Adjusts language, visuals, and detail level to the selected audience" ++ nl ++
  "  - Includes or excludes technical terms exactly as instructed" ++ nl ++
  "  - Follows the selected focus mode" ++ nl ++
  "  - Provides clear visual layout instructions (structure, hierarchy, sections)" ++ nl ++
  "  - Includes labels, icons, and simple diagram descriptions" ++ nl ++
  "  - Is explicit enough for Nano Banana Pro to generate the infographic" ++ nl ++
  nl ++
  "OUTPUT FORMAT:" ++ nl ++
  "{" ++ nl ++
  "  " ++ dq ++ "prompt" ++ dq ++ ": " ++ dq ++ "<FINAL_NANO_BANANA_PROMPT>" ++ dq ++ nl ++
  "}" ++ nl.

(** The template after the place of the PDF text. *)
Definition systemPrompt_tail (audience terms focus : value) : string :=
  "... (truncated for context limit)" ++ nl ++
  "- Level: " ++ to_string audience ++ nl ++
  "- Technical terms: " ++ to_string terms ++ nl ++
  "- Focus: " ++ to_string focus ++
  systemPrompt_task.

(** The template literal [systemPrompt]; [text.substring] throws when
    [text] is not a string. *)
Definition systemPrompt (text audience terms focus : value) : result string :=
  match call_substring text 0 10000 with
  | Ok prefix =>
      Ok (systemPrompt_head ++ prefix ++ systemPrompt_tail audience terms focus)
  | Thrown e => Thrown e
  end.

(** [content.match(/\{[\s\S]*\}/)]: from the first opening brace to the
    last closing brace after it. *)
Fixpoint after_open (s : string) : option string :=
  match s with
  | EmptyString => None
  | String c rest => if (c =? "{")%char then Some rest else after_open rest
  end.

Fixpoint upto_last_close (s : string) : option string :=
  match s with
  | EmptyString => None
  | String c rest =>
      match upto_last_close rest with
      | Some p => Some (String c p)
      | None => if (c =? "}")%char then Some (String c EmptyString) else None
      end
  end.

Definition jsonMatch (content : string) : option string :=
  match after_open content with
  | None => None
  | Some rest =>
      match upto_last_close rest with
      | Some p => Some (String "{" p)
      | None => None
      end
  end.

(** The inner [try] block of the live branch. *)
Definition parse_reply (w : World) (content : string) : M response :=
  try_catch
    (parsed <- lift (JSON_parse w (match jsonMatch content with
                                   | Some m => m
                                   | None => content
                                   end)) ;;
     prompt <- lift (get parsed "prompt") ;;
     ret (json (Obj [("prompt", prompt)])))
    (fun _ => ret (json (Obj [("prompt", Str content)]))).

Definition generate_prompt_route (w : World) (req_body : list (string * value))
  : M response :=
  let text := lookup "text" req_body in
  let audience := lookup "audience" req_body in
  let terms := lookup "terms" req_body in
  let focus := lookup "focus" req_body in
  if negb (truthy text) || negb (truthy audience)
     || negb (truthy terms) || negb (truthy focus)
  then ret (status_json 400 (Obj [("error", Str "Missing required parameters")]))
  else
    systemPrompt <- lift (systemPrompt text audience terms focus) ;;
    try_catch
      (if truthy (API_KEY w)
       then
         content <- call_generateContent w systemPrompt ;;
         parse_reply w content
       else
         ret (json (Obj [("prompt", Str ("Mock prompt for " ++ to_string audience))])))
      (fun error =>
         ret (status_json 500
                (Obj [("error", Str ("Failed to generate prompt: " ++ message error))]))).

(** *** 3. [POST /api/generate-infographic] *)

(** [part.inlineData && !part.thought], as a condition *)
Definition is_image_part (part : value) : result bool :=
  match get part "inlineData" with
  | Thrown e => Thrown e
  | Ok inlineData =>
      if truthy inlineData
      then match get part "thought" with
           | Thrown e => Thrown e
           | Ok thought => Ok (negb (truthy thought))
           end
      else Ok false
  end.

(** [Array.prototype.find] with that callback *)
Fixpoint find_image_part (parts : list value) : result value :=
  match parts with
  | [] => Ok Undefined
  | part :: rest =>
      match is_image_part part with
      | Thrown e => Thrown e
      | Ok true => Ok part
      | Ok false => find_image_part rest
      end
  end.

(** [parts.find(...)]: only an array has the method. *)
Definition call_find (parts : value) : result value :=
  match parts with
  | Arr items => find_image_part items
  | Undefined =>
      Thrown (Error "Cannot read properties of undefined (reading 'find')")
  | Null =>
      Thrown (Error "Cannot read properties of null (reading 'find')")
  | _ => Thrown (Error "parts.find is not a function")
  end.

Definition mockImageUrl : string :=
  "https://placehold.co/600x800/8b5cf6/ffffff?text=Infographic+Generated".

(** The lines under "Extract the image from the response", [data] being
    [response.data]. *)
Definition extract_image (data : value) : M response :=
  candidates <- lift (if truthy data then get data "candidates" else Ok data) ;;
  first <- lift (if truthy candidates then get0 candidates else Ok candidates) ;;
  if truthy first
  then
    content <- lift (get first "content") ;;
    parts <- lift (get content "parts") ;;
    imagePart <- lift (call_find parts) ;;
    inlineData <- lift (if truthy imagePart
                        then get imagePart "inlineData"
                        else Ok imagePart) ;;
    if truthy inlineData
    then
      imageData <- lift (get inlineData "data") ;;
      let imageUrl := "data:image/png;base64," ++ to_string imageData in
      ret (json (Obj [("imageUrl", Str imageUrl)]))
    else throw (Error "No image data in response")
  else throw (Error "Invalid response structure").

Definition generate_infographic_route (w : World)
    (req_body : list (string * value)) : M response :=
  let prompt := lookup "prompt" req_body in
  if negb (truthy prompt)
  then ret (status_json 400 (Obj [("error", Str "Missing prompt")]))
  else
    try_catch
      (if truthy (API_KEY w)
       then
         data <- call_image_post w (API_KEY w) prompt ;;
         extract_image data
       else
         ret (json (Obj [("imageUrl", Str mockImageUrl)])))
      (fun error =>
         ret (status_json 500
                (Obj [("error",
                       Str ("Failed to generate infographic: " ++
                            match response_data error with
                            | Some data => JSON_stringify w data
                            | None => message error
                            end))]))).

(** ** The application *)

Inductive method : Type := GET | POST.

Record request : Type := Request {
  req_method : method;
  req_path : string;
  (** [req.body] after [express.json()] *)
  req_json : list (string * value);
  (** the part named [pdf] of a multipart body *)
  req_pdf : option file
}.

(** The routes registered on [app], in order; [None] when none matches
    and Express answers 404 itself. The static files that the server also
    serves in production answer GET requests for files only and are left
    out. A handler that ends in [Thrown] has
    sent nothing: the error went to [next] or rejected the handler's
    promise. *)
Definition app (w : World) (r : request) : option (M response) :=
  match req_method r with
  | GET =>
      if (req_path r =? "/api/status")%string then Some (status_route w)
      else None
  | POST =>
      if (req_path r =? "/api/upload")%string
      then Some (upload_route w (req_pdf r))
      else if (req_path r =? "/api/generate-prompt")%string
      then Some (generate_prompt_route w (req_json r))
      else if (req_path r =? "/api/generate-infographic")%string
      then Some (generate_infographic_route w (req_json r))
      else None
  end.

End Server.

(* ================================================================== *)
(** * The client: [client/src/api.js] and the wizard of [App.jsx]       *)
(* ================================================================== *)

(** The App component embedded here is the one with the text mode. The
    repository holds two earlier versions of it with the PDF mode alone:
    their [handleFileUpload] is the same, and their [startProcess] is the
    PDF branch of this one without the two guards (the earliest also sends
    no language and no style notes). *)

Module Client.
Import Js.

(** ** HTTP *)

(** A browser [File]. *)
Record File : Type := {
  name : string;
  size : Z;               (* bytes *)
  type : string;
  bytes : string
}.

(** What [axios.post] sends: a JSON object, or the form whose field [pdf]
    holds the file. *)
Inductive payload : Type :=
| Json (body : list (string * value))
| Form (pdf : option File).

(** [axios.post(url, payload)]: [response.data], or the error thrown. *)
Definition Http : Type := string -> payload -> result value.

Definition API_URL : string := "http://localhost:3000/api".

(** ** The wizard's state *)

Inductive mode : Type := pdf | text.

Record Options : Type := {
  language : string;
  audience : string;
  focus : string;
  terms : string;
  styleNotes : string
}.

Record State : Type := {
  step : Z;               (* 1: Upload, 2: Options, 3: Processing, 4: Result *)
  file : option File;
  pdfText : value;
  inputMode : mode;
  textInput : string;
  options : Options;
  showAdvanced : bool;
  status : string;
  resultImage : value;
  error : string
}.

(** The [useState] initial values. *)
Definition initial : State := {|
  step := 1;
  file := None;
  pdfText := Str "";
  inputMode := pdf;
  textInput := "";
  options := {| language := "Deutsch";
                audience := "General public";
                focus := "Balanced overview";
                terms := "Include & Explain";
                styleNotes := "" |};
  showAdvanced := false;
  status := "";
  resultImage := Str "";
  error := ""
|}.

Definition setStep (n : Z) (s : State) : State :=
  {| step := n; file := file s; pdfText := pdfText s;
     inputMode := inputMode s; textInput := textInput s;
     options := options s; showAdvanced := showAdvanced s;
     status := status s; resultImage := resultImage s; error := error s |}.
Definition setFile (f : option File) (s : State) : State :=
  {| step := step s; file := f; pdfText := pdfText s;
     inputMode := inputMode s; textInput := textInput s;
     options := options s; showAdvanced := showAdvanced s;
     status := status s; resultImage := resultImage s; error := error s |}.
Definition setPdfText (v : value) (s : State) : State :=
  {| step := step s; file := file s; pdfText := v;
     inputMode := inputMode s; textInput := textInput s;
     options := options s; showAdvanced := showAdvanced s;
     status := status s; resultImage := resultImage s; error := error s |}.
Definition setInputMode (m : mode) (s : State) : State :=
  {| step := step s; file := file s; pdfText := pdfText s;
     inputMode := m; textInput := textInput s;
     options := options s; showAdvanced := showAdvanced s;
     status := status s; resultImage := resultImage s; error := error s |}.
Definition setTextInput (t : string) (s : State) : State :=
  {| step := step s; file := file s; pdfText := pdfText s;
     inputMode := inputMode s; textInput := t;
     options := options s; showAdvanced := showAdvanced s;
     status := status s; resultImage := resultImage s; error := error s |}.
Definition setOptions (o : Options) (s : State) : State :=
  {| step := step s; file := file s; pdfText := pdfText s;
     inputMode := inputMode s; textInput := textInput s;
     options := o; showAdvanced := showAdvanced s;
     status := status s; resultImage := resultImage s; error := error s |}.
Definition setShowAdvanced (b : bool) (s : State) : State :=
  {| step := step s; file := file s; pdfText := pdfText s;
     inputMode := inputMode s; textInput := textInput s;
     options := options s; showAdvanced := b;
     status := status s; resultImage := resultImage s; error := error s |}.
Definition setStatus (t : string) (s : State) : State :=
  {| step := step s; file := file s; pdfText := pdfText s;
     inputMode := inputMode s; textInput := textInput s;
     options := options s; showAdvanced := showAdvanced s;
     status := t; resultImage := resultImage s; error := error s |}.
Definition setResultImage (v : value) (s : State) : State :=
  {| step := step s; file := file s; pdfText := pdfText s;
     inputMode := inputMode s; textInput := textInput s;
     options := options s; showAdvanced := showAdvanced s;
     status := status s; resultImage := v; error := error s |}.
Definition setError (t : string) (s : State) : State :=
  {| step := step s; file := file s; pdfText := pdfText s;
     inputMode := inputMode s; textInput := textInput s;
     options := options s; showAdvanced := showAdvanced s;
     status := status s; resultImage := resultImage s; error := t |}.

(** ** [handleFileUpload] *)

Definition large_file_warning : string :=
  "⚠️ Large file detected. Processing may take longer and results might be affected due to file size.".

(** [selected] is [e.target.files[0]]. *)
Definition handleFileUpload (selected : option File) (s : State) : State :=
  match selected with
  | None => s
  | Some selectedFile =>
      if 50 * 1024 * 1024 <? size selectedFile
      then setError "File size exceeds 50MB limit." s
      else if negb (type selectedFile =? "application/pdf")%string
      then setError "Only PDF files are allowed." s
      else
        let s := if 25 * 1024 * 1024 <? size selectedFile
                 then setError large_file_warning s
                 else setError "" s in
        setFile (Some selectedFile) s
  end.

(** ** Asynchronous code over the state *)

(** A run in progress: the current state, the states it went through
    (one per setter call, oldest first) and the requests sent so far. *)
Record Run : Type := {
  cur : State;
  trace : list State;
  posts : list (string * payload)
}.

Definition R (A : Type) : Type := Run -> Run * result A.

Definition ret {A} (a : A) : R A := fun r => (r, Ok a).
Definition throw {A} (e : exn) : R A := fun r => (r, Thrown e).
Definition lift {A} (x : result A) : R A := fun r => (r, x).

Definition bind {A B} (m : R A) (f : A -> R B) : R B :=
  fun r =>
    match m r with
    | (r', Ok a) => f a r'
    | (r', Thrown e) => (r', Thrown e)
    end.

(** [try { m } catch (e) { h e }] *)
Definition try_catch {A} (m : R A) (h : exn -> R A) : R A :=
  fun r =>
    match m r with
    | (r', Ok a) => (r', Ok a)
    | (r', Thrown e) => h e r'
    end.

(** A setter call. *)
Definition update (f : State -> State) : R unit :=
  fun r =>
    ({| cur := f (cur r);
        trace := (trace r ++ [f (cur r)])%list;
        posts := posts r |}, Ok tt).

(** [await axios.post(url, p)], read at [.data] *)
Definition post (http : Http) (url : string) (p : payload) : R value :=
  fun r =>
    ({| cur := cur r;
        trace := trace r;
        posts := (posts r ++ [(url, p)])%list |}, http url p).

Declare Scope run_scope.
Delimit Scope run_scope with run.
Notation "x <- m ;; k" := (bind m (fun x => k))
  (at level 61, m at next level, right associativity) : run_scope.
Notation "m ;; k" := (bind m (fun _ => k))
  (at level 61, right associativity) : run_scope.
Local Open Scope run_scope.

(** ** [api.js] *)

Definition uploadPDF (http : Http) (f : option File) : R value :=
  post http "/api/upload" (Form f).

Definition processText (http : Http) (t : string) : R value :=
  post http "/api/process-text" (Json [("text", Str t)]).

Definition generatePrompt (http : Http)
    (text : value) (audience terms focus language styleNotes : string) : R value :=
  post http "/api/generate-prompt"
    (Json [("text", text);
           ("audience", Str audience);
           ("terms", Str terms);
           ("focus", Str focus);
           ("language", Str language);
           ("styleNotes", Str styleNotes)]).

Definition generateInfographic (http : Http) (prompt : value) : R value :=
  try_catch
    (post http (API_URL ++ "/generate-infographic") (Json [("prompt", prompt)]))
    (fun error => throw error).

(** ** [startProcess] *)

(** White space as [String.prototype.trim] removes it, among the
    characters a [string] has here. *)
Definition is_white (c : ascii) : bool :=
  let n := nat_of_ascii c in
  ((9 <=? n) && (n <=? 13) || (n =? 32) || (n =? 160))%nat.

(** [!t.trim()] *)
Fixpoint blank (t : string) : bool :=
  match t with
  | EmptyString => true
  | String c rest => is_white c && blank rest
  end.

(** [err.message || 'Unknown error'] *)
Definition message_or_unknown (err : exn) : string :=
  if (message err =? "")%string then "Unknown error" else message err.

(** The body of the [try] block. [s] holds the values the handler closed
    over: [inputMode], [file], [textInput] and [options] as rendered. *)
Definition pipeline (http : Http) (s : State) : R unit :=
  extractedText <-
    match inputMode s with
    | pdf =>
        update (setStatus "Uploading and analyzing PDF...") ;;
        uploadRes <- uploadPDF http (file s) ;;
        lift (get uploadRes "text")
    | text =>
        update (setStatus "Processing your text...") ;;
        textRes <- processText http (textInput s) ;;
        lift (get textRes "text")
    end ;;
  update (setPdfText extractedText) ;;
  update (setStatus "Generating infographic prompt...") ;;
  promptRes <- generatePrompt http extractedText
                 (audience (options s)) (terms (options s)) (focus (options s))
                 (language (options s)) (styleNotes (options s)) ;;
  update (setStatus "Creating infographic with Nano Banana Pro...") ;;
  prompt <- lift (get promptRes "prompt") ;;
  infographicRes <- generateInfographic http prompt ;;
  imageUrl <- lift (get infographicRes "imageUrl") ;;
  if negb (truthy imageUrl)
  then throw (Error "No image URL returned from server")
  else
    update (setResultImage imageUrl) ;;
    update (setStatus "Completed!") ;;
    update (setStep 4).

Definition startProcess (http : Http) : R unit :=
  fun r =>
    let s := cur r in
    match inputMode s, file s with
    | pdf, None => update (setError "Please upload a PDF file first.") r
    | _, _ =>
        match inputMode s, blank (textInput s) with
        | text, true => update (setError "Please enter some text first.") r
        | _, _ =>
            (update (setStep 3) ;;
             update (setError "") ;;
             try_catch
               (pipeline http s)
               (fun err =>
                  update (setError ("An error occurred: " ++ message_or_unknown err))))
              r
        end
    end.

(** A click on "Generate Infographic" in state [s]. *)
Definition run (http : Http) (s : State) : Run :=
  fst (startProcess http {| cur := s; trace := []; posts := [] |}).

(** [reset] *)
Definition reset (s : State) : State :=
  setError "" (setStatus "" (setResultImage (Str "")
    (setPdfText (Str "") (setFile None (setStep 1 s))))).

(** ** The wizard *)

(** What the user can do. [Generate] carries the behaviour of the
    network during that run. *)
Inductive event : Type :=
| SelectFile (f : option File)
| ChooseMode (m : mode)
| TypeText (t : string)
| Continue
| Back
| ChangeOptions (o : Options)
| ToggleAdvanced
| Generate (http : Http)
| TryAgain
| StartOver.

(** [disabled={inputMode === 'pdf' ? !file : textInput.length < 100}] *)
Definition continue_disabled (s : State) : bool :=
  match inputMode s with
  | pdf => match file s with None => true | Some _ => false end
  | text => (String.length (textInput s) <? 100)%nat
  end.

(** The state after an event, [None] when the control is not on the
    screen of the current step or is disabled. *)
Definition handle (ev : event) (s : State) : option State :=
  match ev with
  | SelectFile f =>
      match inputMode s with
      | pdf => if step s =? 1 then Some (handleFileUpload f s) else None
      | text => None
      end
  | ChooseMode m =>
      if step s =? 1 then Some (setError "" (setInputMode m s)) else None
  | TypeText t =>
      match inputMode s with
      | text => if step s =? 1 then Some (setError "" (setTextInput t s)) else None
      | pdf => None
      end
  | Continue =>
      if (step s =? 1) && negb (continue_disabled s)
      then Some (setStep 2 s) else None
  | Back => if step s =? 2 then Some (setStep 1 s) else None
  | ChangeOptions o => if step s =? 2 then Some (setOptions o s) else None
  | ToggleAdvanced =>
      if step s =? 2 then Some (setShowAdvanced (negb (showAdvanced s)) s) else None
  | Generate http => if step s =? 2 then Some (cur (run http s)) else None
  | TryAgain =>
      if (step s =? 3) && negb (error s =? "")%string
      then Some (setStep 2 s) else None
  | StartOver => if step s =? 4 then Some (reset s) else None
  end.

(** A sequence of events from a state. *)
Fixpoint play (evs : list event) (s : State) : option State :=
  match evs with
  | [] => Some s
  | ev :: rest =>
      match handle ev s with
      | Some s' => play rest s'
      | None => None
      end
  end.

(** The states a session can be in. *)
Inductive reachable : State -> Prop :=
| reach_initial : reachable initial
| reach_step s ev s' :
    reachable s -> handle ev s = Some s' -> reachable s'.

(** ** The earlier versions of [startProcess] *)

(** [generatePrompt(text, audience, terms, focus)]: called with four
    arguments, the function's [language] and [styleNotes] are undefined. *)
Definition generatePrompt4 (http : Http)
    (text : value) (audience terms focus : string) : R value :=
  post http "/api/generate-prompt"
    (Json [("text", text);
           ("audience", Str audience);
           ("terms", Str terms);
           ("focus", Str focus);
           ("language", Undefined);
           ("styleNotes", Undefined)]).

(** [startProcess] of the App with the PDF mode alone and the language and
    style options: no guard, the file of the state is uploaded as it is. *)
Definition startProcess_pdf_only (http : Http) : R unit :=
  fun r =>
    let s := cur r in
    (update (setStep 3) ;;
     update (setError "") ;;
     try_catch
       (update (setStatus "Uploading and analyzing PDF...") ;;
        uploadRes <- uploadPDF http (file s) ;;
        uploadRes_text <- lift (get uploadRes "text") ;;
        update (setPdfText uploadRes_text) ;;
        update (setStatus "Generating infographic prompt...") ;;
        promptRes <- generatePrompt http uploadRes_text
                       (audience (options s)) (terms (options s)) (focus (options s))
                       (language (options s)) (styleNotes (options s)) ;;
        update (setStatus "Creating infographic with Nano Banana Pro...") ;;
        prompt <- lift (get promptRes "prompt") ;;
        infographicRes <- generateInfographic http prompt ;;
        imageUrl <- lift (get infographicRes "imageUrl") ;;
        if negb (truthy imageUrl)
        then throw (Error "No image URL returned from server")
        else
          update (setResultImage imageUrl) ;;
          update (setStatus "Completed!") ;;
          update (setStep 4))
       (fun err =>
          update (setError ("An error occurred: " ++ message_or_unknown err))))
      r.

(** [startProcess] of the first App ([client/src/App.jsx]): the same, with
    [generatePrompt] called on four arguments. *)
Definition startProcess_first (http : Http) : R unit :=
  fun r =>
    let s := cur r in
    (update (setStep 3) ;;
     update (setError "") ;;
     try_catch
       (update (setStatus "Uploading and analyzing PDF...") ;;
        uploadRes <- uploadPDF http (file s) ;;
        uploadRes_text <- lift (get uploadRes "text") ;;
        update (setPdfText uploadRes_text) ;;
        update (setStatus "Generating infographic prompt...") ;;
        promptRes <- generatePrompt4 http uploadRes_text
                       (audience (options s)) (terms (options s)) (focus (options s)) ;;
        update (setStatus "Creating infographic with Nano Banana Pro...") ;;
        prompt <- lift (get promptRes "prompt") ;;
        infographicRes <- generateInfographic http prompt ;;
        imageUrl <- lift (get infographicRes "imageUrl") ;;
        if negb (truthy imageUrl)
        then throw (Error "No image URL returned from server")
        else
          update (setResultImage imageUrl) ;;
          update (setStatus "Completed!") ;;
          update (setStep 4))
       (fun err =>
          update (setError ("An error occurred: " ++ message_or_unknown err))))
      r.

Definition run_pdf_only (http : Http) (s : State) : Run :=
  fst (startProcess_pdf_only http {| cur := s; trace := []; posts := [] |}).

Definition run_first (http : Http) (s : State) : Run :=
  fst (startProcess_first http {| cur := s; trace := []; posts := [] |}).

(** ** The status indicator *)

(** [useState({ llm: false, nanoBanana: false })] *)
Definition initial_apiStatus : value :=
  Obj [("llm", Bool false); ("nanoBanana", Bool false)].

(** The effect on load: [fetch('/api/status')], its JSON into [apiStatus];
    a failure is logged and the state stays. *)
Definition load_apiStatus (fetched : result value) : value :=
  match fetched with
  | Ok data => data
  | Thrown _ => initial_apiStatus
  end.

(** The two labels of the first App:
    [apiStatus.llm ? 'Connected' : 'Mock'] and the same for [nanoBanana]. *)
Definition indicator (apiStatus : value) : result (string * string) :=
  match get apiStatus "llm" with
  | Thrown e => Thrown e
  | Ok llm =>
      match get apiStatus "nanoBanana" with
      | Thrown e => Thrown e
      | Ok nanoBanana =>
          Ok (if truthy llm then "Connected" else "Mock",
              if truthy nanoBanana then "Connected" else "Mock")
      end
  end.

End Client.

(* ================================================================== *)
(** * Client and server together                                        *)
(* ================================================================== *)

Module System.
Import Js.

(** The path of a URL on the server: the client posts to paths and, for
    the image, to [API_URL], the server's own address. *)
Definition origin : string := "http://localhost:3000".

Definition path_of (url : string) : string :=
  if String.prefix origin url
  then String.substring (String.length origin)
         (String.length url - String.length origin) url
  else url.

Definition request_of (url : string) (p : Client.payload) : Server.request :=
  match p with
  | Client.Json body =>
      {| Server.req_method := Server.POST;
         Server.req_path := path_of url;
         Server.req_json :=
           match wire (Obj body) with Obj b => b | _ => [] end;
         Server.req_pdf := None |}
  | Client.Form f =>
      {| Server.req_method := Server.POST;
         Server.req_path := path_of url;
         Server.req_json := [];
         Server.req_pdf :=
           match f with
           | Some f => Some (Server.File (Client.type f) (Client.size f)
                               (Client.bytes f))
           | None => None
           end |}
  end.

(** The error axios throws for a status outside 2xx. *)
Definition status_error (n : Z) (data : value) : exn :=
  {| message := "Request failed with status code " ++ string_of_Z n;
     response_data := Some data |}.

(** The bytes of a text in UTF-8: one for a character below 128, two for
    the others. *)
Fixpoint utf8_length (s : string) : Z :=
  match s with
  | EmptyString => 0
  | String c rest =>
      (if (nat_of_ascii c <? 128)%nat then 1 else 2) + utf8_length rest
  end.

(** [app.use(express.json())] takes a JSON body of at most 100kb, the
    default limit, and answers 413 to a longer one before any route. *)
Definition json_limit : Z := 100 * 1024.

Definition too_large (p : Client.payload) : bool :=
  match p with
  | Client.Json body => json_limit <? utf8_length (JsonText.text_of (Obj body))
  | Client.Form _ => false
  end.

(** What the server answers. Express itself answers 404 when no route
    matches and 500 when an error escapes a handler; the page it sends is
    read by nobody and left [Undefined]. *)
Definition serve (w : Server.World) (url : string) (p : Client.payload)
  : list Server.call * Server.response :=
  if too_large p then ([], Server.Response 413 Undefined)
  else
    match Server.app w (request_of url p) with
    | None => ([], Server.Response 404 Undefined)
    | Some (l, Ok resp) => (l, resp)
    | Some (l, Thrown _) => (l, Server.Response 500 Undefined)
    end.

(** [axios.post] against this server. *)
Definition axios (w : Server.World) : Client.Http :=
  fun url p =>
    let resp := snd (serve w url p) in
    if (200 <=? Server.status resp) && (Server.status resp <? 300)
    then Ok (wire (Server.body resp))
    else Thrown (status_error (Server.status resp) (wire (Server.body resp))).

(** [fetch(url).then(res => res.json())] against this server: the body of
    the answer of a route; the page Express sends for anything else is no
    JSON. *)
Definition fetch_json (w : Server.World) (url : string) : result value :=
  match Server.app w {| Server.req_method := Server.GET;
                        Server.req_path := path_of url;
                        Server.req_json := [];
                        Server.req_pdf := None |} with
  | Some (_, Ok resp) => Ok (wire (Server.body resp))
  | _ => Thrown (Error "Unexpected token '<'")
  end.

End System.

(* ================================================================== *)
(** * Vocabulary of the specification                                   *)
(* ================================================================== *)

Module Spec.
Import Js.

(** An environment variable holds a credential when it is set and not
    empty. *)
Definition configured (o : option string) : bool :=
  match o with
  | Some s => negb (s =? "")%string
  | None => false
  end.


(** The computation calls nothing outside the process. *)
Definition silent {A} (m : Server.M A) : Prop := Server.calls m = [].

(** The four fields that [/api/generate-prompt] tests. *)
Definition all_present (body : list (string * value)) : bool :=
  truthy (lookup "text" body) && truthy (lookup "audience" body)
  && truthy (lookup "terms" body) && truthy (lookup "focus" body).

(** The first [n] characters of a string. *)
Fixpoint take (n : nat) (s : string) : string :=
  match n, s with
  | S n, String c rest => String c (take n rest)
  | _, _ => EmptyString
  end.

(** The text handed to [JSON.parse]: the braces of the reply when it has
    some, the whole reply otherwise. *)
Definition json_candidate (content : string) : string :=
  match Server.jsonMatch content with
  | Some m => m
  | None => content
  end.




(** The documented shape of the service's answer:
    [{candidates: [{content: {parts: [...]}}, ...]}]. *)
Definition answer (parts : list value) (others : list value) : value :=
  Obj [("candidates",
        Arr (Obj [("content", Obj [("parts", Arr parts)])] :: others))].






(** A run starts when neither guard of [startProcess] returns early. *)
Definition starts (s : Client.State) : bool :=
  match Client.inputMode s with
  | Client.pdf => match Client.file s with Some _ => true | None => false end
  | Client.text => negb (Client.blank (Client.textInput s))
  end.

(** The run ended on the result view with an artifact: a truthy image
    reference, the [imageUrl] of the answer to the last request, which
    went to the artifact endpoint. *)
Definition Complete (http : Client.Http) (r : Client.Run) : Prop :=
  Client.step (Client.cur r) = 4
  /\ truthy (Client.resultImage (Client.cur r)) = true
  /\ Client.error (Client.cur r) = ""
  /\ Client.status (Client.cur r) = "Completed!"
  /\ exists prompt res,
       last (Client.posts r) ("", Client.Form None)
       = (Client.API_URL ++ "/generate-infographic",
          Client.Json [("prompt", prompt)])
       /\ http (Client.API_URL ++ "/generate-infographic")
            (Client.Json [("prompt", prompt)]) = Ok res
       /\ get res "imageUrl" = Ok (Client.resultImage (Client.cur r)).

(** The run that began in [s] ended on the processing view with the
    description of error [err], and wrote no artifact. *)
Definition Failed (s : Client.State) (r : Client.Run) (err : exn) : Prop :=
  Client.step (Client.cur r) = 3
  /\ Client.error (Client.cur r)
     = "An error occurred: "
       ++ (if (message err =? "")%string then "Unknown error" else message err)
  /\ Client.resultImage (Client.cur r) = Client.resultImage s.

(** The artifact on the screen: the result view, and no other, shows
    [resultImage]. *)
Definition shown_image (s : Client.State) : option value :=
  if Client.step s =? 4 then Some (Client.resultImage s) else None.

(** The character occurs in the text. *)
Fixpoint has (c : ascii) (s : string) : bool :=
  match s with
  | EmptyString => false
  | String c' rest => (c' =? c)%char || has c rest
  end.

(** The three requests of a run, in order. *)
Definition extraction_request (s : Client.State) : string * Client.payload :=
  match Client.inputMode s with
  | Client.pdf => ("/api/upload", Client.Form (Client.file s))
  | Client.text =>
      ("/api/process-text", Client.Json [("text", Str (Client.textInput s))])
  end.

Definition directive_request (s : Client.State) (t : value)
  : string * Client.payload :=
  ("/api/generate-prompt",
   Client.Json [("text", t);
                ("audience", Str (Client.audience (Client.options s)));
                ("terms", Str (Client.terms (Client.options s)));
                ("focus", Str (Client.focus (Client.options s)));
                ("language", Str (Client.language (Client.options s)));
                ("styleNotes", Str (Client.styleNotes (Client.options s)))]).

Definition artifact_request (prompt : value) : string * Client.payload :=
  (Client.API_URL ++ "/generate-infographic", Client.Json [("prompt", prompt)]).

(** The request as the network function takes it. *)
Definition sent (http : Client.Http) (q : string * Client.payload) : result value :=
  http (fst q) (snd q).

(** Two states hold the same inputs of a run. *)
Definition same_inputs (s s' : Client.State) : Prop :=
  Client.inputMode s = Client.inputMode s'
  /\ Client.file s = Client.file s'
  /\ Client.textInput s = Client.textInput s'
  /\ Client.options s = Client.options s'.

(** The first configured credential, as [API_KEY] picks it. *)
Definition credential (w : Server.World) : option string :=
  if configured (Server.LLM_API_KEY w) then Server.LLM_API_KEY w
  else if configured (Server.NANO_BANANA_API_KEY w)
       then Server.NANO_BANANA_API_KEY w
       else None.


(** What a route does: no call and 400; or at most one call and 200 or 500;
   or no call and an escaping error. *)
Definition tidy (m : Server.M Server.response) : Prop :=
  (length (Server.calls m) <= 1)%nat
  /\ (forall resp, Server.outcome m = Ok resp ->
        (Server.status resp = 200 \/ Server.status resp = 400
         \/ Server.status resp = 500)
        /\ (Server.status resp = 400 -> Server.calls m = []))
  /\ (forall e, Server.outcome m = Thrown e -> Server.calls m = []).

Definition inputs_ready (s : Client.State) : Prop :=
  match Client.inputMode s with
  | Client.pdf => exists f, Client.file s = Some f
  | Client.text => (100 <= String.length (Client.textInput s))%nat
  end.

(** What [axios.post] makes of the outcome of a route: the body of an
    answer in 2xx, an error with the status for the rest; an error that
    escaped the route is Express's 500. *)
Definition received (o : result Server.response) : result value :=
  let resp := match o with
              | Ok resp => resp
              | Thrown _ => Server.Response 500 Undefined
              end in
  if (200 <=? Server.status resp) && (Server.status resp <? 300)
  then Ok (wire (Server.body resp))
  else Thrown (System.status_error (Server.status resp) (wire (Server.body resp))).

(** A state whose PDF the server accepts and reads as [t]. *)
Definition readable_pdf (w : Server.World) (s : Client.State) (t : string) : Prop :=
  exists f,
    Client.inputMode s = Client.pdf /\ Client.file s = Some f
    /\ Client.type f = "application/pdf"
    /\ Client.size f <= 10 * 1024 * 1024
    /\ Server.pdfParse w (Client.bytes f) = Ok t.



(** The requests of a run in the order of its stages: the extraction
    request alone when it gave no text; the directive request after it,
    carrying that text, and alone with it when it gave no prompt; the
    artifact request last, carrying that prompt. *)
Definition staged (http : Client.Http) (s : Client.State) (r : Client.Run) : Prop :=
  let q1 := extraction_request s in
  (Client.posts r = [q1]
   /\ forall res1 t, sent http q1 = Ok res1 -> get res1 "text" = Ok t -> False)
  \/ exists res1 t,
       sent http q1 = Ok res1 /\ get res1 "text" = Ok t
       /\ ((Client.posts r = [q1; directive_request s t]
            /\ forall res2 prompt,
                 sent http (directive_request s t) = Ok res2 ->
                 get res2 "prompt" = Ok prompt -> False)
           \/ exists res2 prompt,
                sent http (directive_request s t) = Ok res2
                /\ get res2 "prompt" = Ok prompt
                /\ Client.posts r
                   = [q1; directive_request s t; artifact_request prompt]).

End Spec.

(* ================================================================== *)
(** * Concrete worlds and inputs                                        *)
(* ================================================================== *)

Module Examples.
Import Js.

(** No credential at all; the services are out of reach. *)
Definition mock_world : Server.World := {|
  Server.LLM_API_KEY := None;
  Server.NANO_BANANA_API_KEY := None;
  Server.pdfParse := fun b => Ok b;
  Server.generateContent := fun _ => Thrown (Error "fetch failed");
  Server.image_post := fun _ _ => Thrown (Error "Network Error");
  Server.JSON_parse := JsonText.parse;
  Server.JSON_stringify := JsonText.stringify
|}.

(** A credential, a model that answers [reply] and an image service that
    answers [data]. *)
Definition live_world (reply : string) (data : value) : Server.World := {|
  Server.LLM_API_KEY := Some "key";
  Server.NANO_BANANA_API_KEY := None;
  Server.pdfParse := fun b => Ok b;
  Server.generateContent := fun _ => Ok reply;
  Server.image_post := fun _ _ => Ok data;
  Server.JSON_parse := JsonText.parse;
  Server.JSON_stringify := JsonText.stringify
|}.

(** What the client of [App.jsx] sends to [/api/generate-prompt]. *)
Definition prompt_body (text language styleNotes : string)
  : list (string * value) :=
  [("text", Str text);
   ("audience", Str "General public");
   ("terms", Str "Include & Explain");
   ("focus", Str "Balanced overview");
   ("language", Str language);
   ("styleNotes", Str styleNotes)].


Fixpoint repeat_char (c : ascii) (n : nat) : string :=
  match n with
  | O => EmptyString
  | S n => String c (repeat_char c n)
  end.

(** A text of 150 characters. *)
Definition text150 : string := repeat_char "a" 150.

Definition pdf_of_size (n : Z) : Client.File := {|
  Client.name := "paper.pdf";
  Client.size := n;
  Client.type := "application/pdf";
  Client.bytes := "%PDF-1.7"
|}.

(** The options screen after a file was chosen on a fresh page. *)
Definition at_options_with (f : Client.File) : Client.State :=
  Client.setStep 2 (Client.handleFileUpload (Some f) Client.initial).

(** The options screen after a text was typed on a fresh page. *)
Definition at_options_with_text (t : string) : Client.State :=
  Client.setStep 2
    (Client.setError ""
       (Client.setTextInput t
          (Client.setError "" (Client.setInputMode Client.text Client.initial)))).


(** A reply of the model whose JSON object has no [prompt]. *)
Definition reply_without_prompt : string :=
  "Sure! {" ++ Server.dq ++ "title" ++ Server.dq ++ ": "
    ++ Server.dq ++ "Cells" ++ Server.dq ++ "}".

(** A credential, and both services out of reach. *)
Definition failing_world : Server.World := {|
  Server.LLM_API_KEY := Some "key";
  Server.NANO_BANANA_API_KEY := None;
  Server.pdfParse := fun b => Ok b;
  Server.generateContent := fun _ => Thrown (Error "fetch failed");
  Server.image_post := fun _ _ => Thrown (Error "Network Error");
  Server.JSON_parse := JsonText.parse;
  Server.JSON_stringify := JsonText.stringify
|}.

(** No credential, and a PDF reader that finds no text, as in a scan. *)
Definition scanned_world : Server.World := {|
  Server.LLM_API_KEY := None;
  Server.NANO_BANANA_API_KEY := None;
  Server.pdfParse := fun _ => Ok "";
  Server.generateContent := fun _ => Thrown (Error "fetch failed");
  Server.image_post := fun _ _ => Thrown (Error "Network Error");
  Server.JSON_parse := JsonText.parse;
  Server.JSON_stringify := JsonText.stringify
|}.


(** A request with a file that is no PDF. *)
Definition text_file_request : Server.request := {|
  Server.req_method := Server.POST;
  Server.req_path := "/api/upload";
  Server.req_json := [];
  Server.req_pdf := Some (Server.File "text/plain" 1024 "hello")
|}.

End Examples.

(* ================================================================== *)
(** * Properties                                                        *)
(* ================================================================== *)

Import Js.
Import Spec.

(** ** Credentials *)

Section Credentials.
Variable w : Server.World.

Lemma truthy_env_value (o : option string) :
  truthy (Server.env_value o) = Spec.configured o.
Proof. destruct o; reflexivity. Qed.

(** [a || b] is truthy exactly when one of the two is. *)
Lemma truthy_or_else (a b : value) :
  truthy (Server.or_else a b) = truthy a || truthy b.
Proof.
  unfold Server.or_else. destruct (truthy a) eqn:Ha; simpl; auto.
Qed.

Lemma API_KEY_configured :
  truthy (Server.API_KEY w)
  = Spec.configured (Server.LLM_API_KEY w)
    || Spec.configured (Server.NANO_BANANA_API_KEY w).
Proof.
  unfold Server.API_KEY.
  now rewrite truthy_or_else, !truthy_env_value.
Qed.

End Credentials.

(** ** Computations that call nothing outside *)

Lemma silent_ret {A} (a : A) : silent (Server.ret a).
Proof. reflexivity. Qed.

Lemma silent_throw {A} (e : exn) : silent (@Server.throw A e).
Proof. reflexivity. Qed.

Lemma silent_lift {A} (r : result A) : silent (Server.lift r).
Proof. reflexivity. Qed.

Lemma silent_bind {A B} (m : Server.M A) (f : A -> Server.M B) :
  silent m -> (forall a, silent (f a)) -> silent (Server.bind m f).
Proof.
  unfold silent, Server.calls, Server.bind.
  destruct m as [l [a|e]]; simpl; intros -> Hf; [|reflexivity].
  specialize (Hf a). destruct (f a) as [l' r]. simpl in *. now subst.
Qed.

Lemma silent_try_catch {A} (m : Server.M A) (h : exn -> Server.M A) :
  silent m -> (forall e, silent (h e)) -> silent (Server.try_catch m h).
Proof.
  unfold silent, Server.calls, Server.try_catch.
  destruct m as [l [a|e]]; simpl; intros -> Hh; [reflexivity|].
  specialize (Hh e). destruct (h e) as [l' r]. simpl in *. now subst.
Qed.

Ltac silence :=
  repeat first
    [ apply silent_ret | apply silent_throw | apply silent_lift
    | apply silent_bind; [|intros ?]
    | apply silent_try_catch; [|intros ?]
    | match goal with
      | |- silent (if ?b then _ else _) => destruct b
      | |- silent (match ?x with _ => _ end) => destruct x
      end ].

Lemma extract_image_silent (data : value) : silent (Server.extract_image data).
Proof. unfold Server.extract_image. silence. Qed.

Lemma parse_reply_silent (w : Server.World) (content : string) :
  silent (Server.parse_reply w content).
Proof. unfold Server.parse_reply. silence. Qed.



Lemma try_catch_calls {A} (m : Server.M A) (h : exn -> Server.M A) :
  (forall e, silent (h e)) ->
  Server.calls (Server.try_catch m h) = Server.calls m.
Proof.
  unfold Server.try_catch, Server.calls, silent.
  destruct m as [l [a|e]]; simpl; intros Hh; [reflexivity|].
  specialize (Hh e). destruct (h e) as [l' r]. simpl in *. subst.
  apply app_nil_r.
Qed.

Lemma bind_call_calls {A B} (c : Server.call) (r : result A) (f : A -> Server.M B) :
  (forall a, silent (f a)) ->
  Server.calls (Server.bind ([c], r) f) = [c].
Proof.
  unfold Server.bind, Server.calls, silent. intros Hf.
  destruct r as [a|e]; [|reflexivity].
  specialize (Hf a). destruct (f a) as [l' r']. simpl in *. now subst.
Qed.

(** ** The validation of [/api/generate-prompt] *)

Lemma all_present_split (body : list (string * value)) :
  Spec.all_present body = true ->
  truthy (lookup "text" body) = true /\
  truthy (lookup "audience" body) = true /\
  truthy (lookup "terms" body) = true /\
  truthy (lookup "focus" body) = true.
Proof.
  unfold Spec.all_present. rewrite !andb_true_iff. tauto.
Qed.

(** The guard of the handler is the negation of [all_present]. *)
Lemma guard_all_present (body : list (string * value)) :
  negb (truthy (lookup "text" body)) || negb (truthy (lookup "audience" body))
  || negb (truthy (lookup "terms" body)) || negb (truthy (lookup "focus" body))
  = negb (Spec.all_present body).
Proof.
  unfold Spec.all_present.
  destruct (truthy (lookup "text" body)), (truthy (lookup "audience" body)),
    (truthy (lookup "terms" body)), (truthy (lookup "focus" body)); reflexivity.
Qed.

(** Reading the reply never throws: the inner [catch] answers. *)
Lemma parse_reply_answers (w : Server.World) (content : string) :
  exists resp, Server.parse_reply w content = ([], Ok resp)
               /\ Server.status resp = 200.
Proof.
  unfold Server.parse_reply, Server.try_catch, Server.bind, Server.lift,
    Server.ret.
  destruct (Server.JSON_parse w _) as [parsed|e]; simpl.
  - destruct (get parsed "prompt"); simpl; eexists; split; reflexivity.
  - eexists; split; reflexivity.
Qed.



Lemma generate_prompt_missing (w : Server.World) (body : list (string * value)) :
  Spec.all_present body = false ->
  Server.generate_prompt_route w body
  = Server.ret (Server.status_json 400
      (Obj [("error", Str "Missing required parameters")])).
Proof.
  intros Hall. unfold Server.generate_prompt_route.
  now rewrite guard_all_present, Hall.
Qed.


Lemma generate_infographic_mock (w : Server.World) (body : list (string * value)) :
  truthy (Server.API_KEY w) = false ->
  Server.generate_infographic_route w body
  = if truthy (lookup "prompt" body)
    then Server.ret (Server.json (Obj [("imageUrl", Str Server.mockImageUrl)]))
    else Server.ret (Server.status_json 400 (Obj [("error", Str "Missing prompt")])).
Proof.
  intros H. unfold Server.generate_infographic_route. rewrite H.
  destruct (truthy (lookup "prompt" body)); reflexivity.
Qed.

(** ** The status flags (C9) *)

Lemma generate_infographic_live_calls (w : Server.World)
    (body : list (string * value)) :
  truthy (lookup "prompt" body) = true ->
  truthy (Server.API_KEY w) = true ->
  Server.calls (Server.generate_infographic_route w body)
  = [Server.ImagePost (Server.API_KEY w) (lookup "prompt" body)].
Proof.
  intros Hp Hkey. unfold Server.generate_infographic_route.
  rewrite Hp, Hkey. simpl.
  rewrite try_catch_calls by (intros; apply silent_ret).
  apply bind_call_calls. intros. apply extract_image_silent.
Qed.



(** ** Fallback mode (C6) *)



(** ** Truncation of the text (C8) *)

Lemma substring_0 (n : nat) (s : string) : String.substring 0 n s = take n s.
Proof.
  revert s. induction n as [|n IH]; intros [|c s]; simpl; try reflexivity.
  now rewrite IH.
Qed.

Lemma take_length (n : nat) (s : string) :
  String.length (take n s) = Nat.min n (String.length s).
Proof.
  revert s. induction n as [|n IH]; intros [|c s]; simpl; try reflexivity.
  now rewrite IH.
Qed.



Lemma take_min (n : nat) (s : string) :
  take (Nat.min n (String.length s)) s = take n s.
Proof.
  revert s. induction n as [|n IH]; intros [|c s]; simpl; try reflexivity.
  now rewrite IH.
Qed.

(** [s.substring(0, j)] is the first [j] characters. *)
Lemma js_substring_0 (s : string) (j : Z) :
  Js.substring s 0 j = take (Z.to_nat j) s.
Proof.
  unfold Js.substring. simpl Z.to_nat.
  rewrite Nat.min_0_l. rewrite Nat.min_0_l, Nat.max_0_l, Nat.sub_0_r.
  now rewrite substring_0, take_min.
Qed.


(** A text of 10,050 characters is cut after the first 10,000. *)
Example long_text_is_cut :
  Js.substring (Examples.repeat_char "a" (Z.to_nat 10050)) 0 10000
  = Examples.repeat_char "a" (Z.to_nat 10000).
Proof. vm_compute. reflexivity. Qed.


(** ** Reading the model's reply (C10) *)

Lemma parse_reply_cases (w : Server.World) (content : string) :
  Server.parse_reply w content
  = match Server.JSON_parse w (json_candidate content) with
    | Ok parsed =>
        match get parsed "prompt" with
        | Ok prompt => Server.ret (Server.json (Obj [("prompt", prompt)]))
        | Thrown _ => Server.ret (Server.json (Obj [("prompt", Str content)]))
        end
    | Thrown _ => Server.ret (Server.json (Obj [("prompt", Str content)]))
    end.
Proof.
  unfold Server.parse_reply, json_candidate, Server.try_catch, Server.bind,
    Server.lift, Server.ret.
  destruct (Server.JSON_parse w _) as [parsed|e]; simpl; [|reflexivity].
  destruct (get parsed "prompt"); reflexivity.
Qed.

(** A valid request on a live server is answered by what reading the reply
    gives. *)
Lemma generate_prompt_live_outcome (w : Server.World)
    (body : list (string * value)) (t content : string) :
  all_present body = true ->
  lookup "text" body = Str t ->
  truthy (Server.API_KEY w) = true ->
  Server.generateContent w
    (Server.systemPrompt_head ++ Js.substring t 0 10000
     ++ Server.systemPrompt_tail (lookup "audience" body)
          (lookup "terms" body) (lookup "focus" body)) = Ok content ->
  Server.outcome (Server.generate_prompt_route w body)
  = Server.outcome (Server.parse_reply w content).
Proof.
  intros Hall Ht Hkey Hreply.
  unfold Server.generate_prompt_route.
  rewrite guard_all_present, Hall, Ht, Hkey.
  unfold Server.systemPrompt, call_substring, Server.call_generateContent.
  cbn [negb Server.lift Server.bind app]. rewrite Hreply.
  destruct (parse_reply_answers w content) as (resp & -> & _). reflexivity.
Qed.

(** C10, as amended. On a live server, for a valid request and a reply
    [content] of the model, let the candidate be the span of [content] from
    its first opening brace to its last closing brace, or all of [content]
    when there is no such span. (1) When the candidate parses to an object
    without a [prompt] member, the answer is 200 with an undefined prompt,
    which leaves an empty object on the wire, and not the raw reply. More
    generally, when it parses to anything but null, the answer is 200 with
    the [prompt] property of the parsed value. (2) The raw reply is the
    answer when [JSON.parse] throws, and also when it yields null, since
    reading [prompt] from null throws inside the same [try]. *)
Theorem reply_reading (w : Server.World)
    (body : list (string * value)) (t content : string) :
  all_present body = true ->
  lookup "text" body = Str t ->
  truthy (Server.API_KEY w) = true ->
  Server.generateContent w
    (Server.systemPrompt_head ++ Js.substring t 0 10000
     ++ Server.systemPrompt_tail (lookup "audience" body)
          (lookup "terms" body) (lookup "focus" body)) = Ok content ->
  let parsed := Server.JSON_parse w (json_candidate content) in
  let answer := Server.outcome (Server.generate_prompt_route w body) in
  (forall props,
     parsed = Ok (Obj props) -> lookup "prompt" props = Undefined ->
     answer = Ok (Server.Response 200 (Obj [("prompt", Undefined)]))
     /\ wire (Obj [("prompt", Undefined)]) = Obj [])
  /\ (forall v,
        parsed = Ok v -> v <> Null -> v <> Undefined ->
        exists p, get v "prompt" = Ok p
                  /\ answer = Ok (Server.Response 200 (Obj [("prompt", p)])))
  /\ (forall e,
        parsed = Thrown e ->
        answer = Ok (Server.Response 200 (Obj [("prompt", Str content)])))
  /\ (parsed = Ok Null \/ parsed = Ok Undefined ->
      answer = Ok (Server.Response 200 (Obj [("prompt", Str content)]))).
Proof.
  intros Hall Ht Hkey Hreply parsed answer. subst parsed answer.
  rewrite (generate_prompt_live_outcome w body t content Hall Ht Hkey Hreply).
  rewrite parse_reply_cases.
  split; [|split; [|split]].
  - intros props Hparsed Hprompt. rewrite Hparsed. cbn [get].
    rewrite Hprompt. split; reflexivity.
  - intros v Hv Hnull Hundef. rewrite Hv.
    destruct v; try congruence; simpl; eexists; split; reflexivity.
  - intros e He. now rewrite He.
  - intros [H|H]; rewrite H; reflexivity.
Qed.

(** The theorem at a reply whose object has a title and no prompt. *)
Lemma reply_reading_witness :
  Server.outcome
    (Server.generate_prompt_route
       (Examples.live_world Examples.reply_without_prompt Null)
       (Examples.prompt_body Examples.text150 "Deutsch" ""))
  = Ok (Server.Response 200 (Obj [("prompt", Undefined)]))
  /\ wire (Obj [("prompt", Undefined)]) = Obj [].
Proof.
  exact (proj1 (reply_reading
                  (Examples.live_world Examples.reply_without_prompt Null)
                  (Examples.prompt_body Examples.text150 "Deutsch" "")
                  Examples.text150 Examples.reply_without_prompt
                  eq_refl eq_refl eq_refl eq_refl)
           [("title", Str "Cells")] eq_refl eq_refl).
Defined.

(** C10 as stated fails where it says that the raw reply is returned only
    when parsing throws: the reply [null] has no braces, [JSON.parse] reads
    it as null without throwing, and the answer is the raw reply. *)
Lemma null_reply_falls_back :
  Server.jsonMatch "null" = None
  /\ Server.JSON_parse (Examples.live_world "null" Null) "null" = Ok Null
  /\ Server.generate_prompt_route (Examples.live_world "null" Null)
       (Examples.prompt_body Examples.text150 "Deutsch" "")
     = ([Server.GenerateContent
           (Server.systemPrompt_head ++ Examples.text150
            ++ Server.systemPrompt_tail (Str "General public")
                 (Str "Include & Explain") (Str "Balanced overview"))],
        Ok (Server.Response 200 (Obj [("prompt", Str "null")]))).
Proof. repeat split. Qed.

(** ** Validation of the directive request (C5) *)




(** ** Language and style notes (C3) *)

(** The route reads four properties of the body and no other: two bodies
    that agree on them get the same answer and cause the same calls. *)
Lemma generate_prompt_reads_four (w : Server.World)
    (body body' : list (string * value)) :
  lookup "text" body = lookup "text" body' ->
  lookup "audience" body = lookup "audience" body' ->
  lookup "terms" body = lookup "terms" body' ->
  lookup "focus" body = lookup "focus" body' ->
  Server.generate_prompt_route w body = Server.generate_prompt_route w body'.
Proof.
  intros H1 H2 H3 H4. unfold Server.generate_prompt_route.
  now rewrite H1, H2, H3, H4.
Qed.

(** C3 fails on the code. Whatever the server's world, the request the
    client sends with language "English" and style notes "Use vibrant
    colors" causes the same calls, with the same prompt for the language
    model, and gets the same answer as the request with language "Deutsch"
    and no style notes; and on a live server that prompt is the template
    filled with text, audience, terms and focus alone. *)
Theorem language_and_style_ignored (w : Server.World) (t : string) :
  Server.generate_prompt_route w
    (Examples.prompt_body t "English" "Use vibrant colors")
  = Server.generate_prompt_route w (Examples.prompt_body t "Deutsch" "")
  /\ Server.systemPrompt (Str t) (Str "General public")
       (Str "Include & Explain") (Str "Balanced overview")
     = Ok (Server.systemPrompt_head ++ Js.substring t 0 10000
           ++ "... (truncated for context limit)" ++ Server.nl
           ++ "- Level: General public" ++ Server.nl
           ++ "- Technical terms: Include & Explain" ++ Server.nl
           ++ "- Focus: Balanced overview"
           ++ Server.systemPrompt_task).
Proof.
  split.
  - apply generate_prompt_reads_four; reflexivity.
  - reflexivity.
Qed.

(** ** Picking the image out of the service's answer (C7) *)













(** ** The coordinator (C4) *)

Lemma run_starts_pdf (http : Client.Http) (s : Client.State) (f : Client.File) :
  Client.inputMode s = Client.pdf -> Client.file s = Some f ->
  Client.run http s
  = fst ((Client.bind (Client.update (Client.setStep 3)) (fun _ =>
          Client.bind (Client.update (Client.setError "")) (fun _ =>
          Client.try_catch (Client.pipeline http s)
            (fun err => Client.update
               (Client.setError ("An error occurred: " ++ Client.message_or_unknown err))))))
         {| Client.cur := s; Client.trace := []; Client.posts := [] |}).
Proof.
  intros Hm Hf. unfold Client.run, Client.startProcess.
  cbn [Client.cur]. now rewrite Hm, Hf.
Qed.

Lemma run_starts_text (http : Client.Http) (s : Client.State) :
  Client.inputMode s = Client.text -> Client.blank (Client.textInput s) = false ->
  Client.run http s
  = fst ((Client.bind (Client.update (Client.setStep 3)) (fun _ =>
          Client.bind (Client.update (Client.setError "")) (fun _ =>
          Client.try_catch (Client.pipeline http s)
            (fun err => Client.update
               (Client.setError ("An error occurred: " ++ Client.message_or_unknown err))))))
         {| Client.cur := s; Client.trace := []; Client.posts := [] |}).
Proof.
  intros Hm Hb. unfold Client.run, Client.startProcess.
  cbn [Client.cur]. rewrite Hm, Hb. now destruct (Client.file s).
Qed.

(** One case split of a run: the next request, the next property read or
    the test of the image reference. *)
Ltac run_step :=
  cbn [Client.cur Client.trace Client.posts app negb fst snd];
  match goal with
  | |- context [match ?x with Ok _ => _ | Thrown _ => _ end] =>
      let E := fresh "E" in destruct x eqn:E
  | |- context [if negb (truthy ?v) then _ else _] =>
      let E := fresh "E" in destruct (truthy v) eqn:E
  end.

Ltac state_fields :=
  cbn [Client.step Client.resultImage Client.error Client.status
       Client.setStep Client.setError Client.setStatus Client.setPdfText
       Client.setResultImage Client.cur Client.trace Client.posts last].

Ltac failed_with :=
  unfold Failed, Client.message_or_unknown; state_fields;
  repeat split; reflexivity.

(** The four parts of atomicity on a run that has been computed. *)
Ltac run_leaf :=
  cbn [Client.cur Client.trace Client.posts app negb fst snd];
  split; [|split; [|split]];
  [ first
      [ left; unfold Complete; state_fields;
        repeat (split; [solve [auto]|]); eexists _, _;
        split; [reflexivity|]; split; eassumption
      | right; eexists; failed_with ]
  | intros url p err Hin Hth; cbn [In] in Hin;
    repeat match goal with
      | H : _ \/ _ |- _ => destruct H as [H|H]
      | H : False |- _ => contradiction
      end;
    first
      [ exfalso; congruence
      | match goal with
        | E : _ = Thrown ?e |- Failed _ _ ?x =>
            assert (x = e) by congruence; subst x
        end;
        failed_with ]
  | repeat constructor; state_fields; intros H4;
    first [discriminate | reflexivity]
  | repeat constructor; state_fields;
    first [left; reflexivity | right; split; reflexivity] ].

(** Atomicity of the part of [startProcess] after its guards. *)
Lemma started_run_atomic (http : Client.Http) (s : Client.State) :
  let r := fst ((Client.bind (Client.update (Client.setStep 3)) (fun _ =>
          Client.bind (Client.update (Client.setError "")) (fun _ =>
          Client.try_catch (Client.pipeline http s)
            (fun err => Client.update
               (Client.setError ("An error occurred: " ++ Client.message_or_unknown err))))))
         {| Client.cur := s; Client.trace := []; Client.posts := [] |}) in
  (Complete http r \/ exists err, Failed s r err)
  /\ (forall url p err,
        In (url, p) (Client.posts r) -> http url p = Thrown err -> Failed s r err)
  /\ Forall (fun st => Client.step st = 4 -> st = Client.cur r) (Client.trace r)
  /\ Forall (fun st => Client.resultImage st = Client.resultImage s
                       \/ (Client.resultImage st = Client.resultImage (Client.cur r)
                           /\ Client.step (Client.cur r) = 4))
       (Client.trace r).
Proof.
  intros r. subst r.
  unfold Client.pipeline, Client.uploadPDF, Client.processText,
    Client.generatePrompt, Client.generateInfographic.
  unfold Client.bind, Client.try_catch, Client.update, Client.post,
    Client.lift, Client.throw, Client.ret.
  destruct (Client.inputMode s); repeat run_step.
  all: run_leaf.
Qed.



(** ** Submitting a text (C1) *)

(** The text field lets the wizard proceed only from 100 characters on. *)
Lemma continue_needs_100_characters (s : Client.State) :
  Client.inputMode s = Client.text -> Client.step s = 1 ->
  (Client.handle Client.Continue s = Some (Client.setStep 2 s)
   <-> (100 <= String.length (Client.textInput s))%nat).
Proof.
  intros Hmode Hstep. unfold Client.handle, Client.continue_disabled.
  rewrite Hmode, Hstep. cbn [Z.eqb Pos.eqb andb].
  destruct (Nat.ltb_spec (String.length (Client.textInput s)) 100);
    cbn [negb]; split; intros; try reflexivity; try discriminate; lia.
Qed.

(** No route of the server takes the request that [processText] sends. *)
Lemma process_text_has_no_route (w : Server.World) (t : string) :
  Server.app w (System.request_of "/api/process-text" (Client.Json [("text", Str t)]))
  = None.
Proof. reflexivity. Qed.

(** The status that the request of [processText] gets: 413 when the body
    is over the limit of [express.json()], 404 otherwise. *)
Lemma process_text_fails (w : Server.World) (t : string) :
  System.axios w "/api/process-text" (Client.Json [("text", Str t)])
  = Thrown (System.status_error
              (if System.too_large (Client.Json [("text", Str t)]) then 413 else 404)
              Undefined).
Proof.
  unfold System.axios, System.serve.
  destruct (System.too_large _); reflexivity.
Qed.

(** C1 fails on the code. For every server world, every state of the
    wizard and every text [t] typed in text mode: the request of
    [processText] matches no route of [server/index.js]; a run with a blank
    [t] is refused before any request; a run with any other [t], of 100
    characters or more as well as of fewer, sends that one request, gets
    404 (413 when the text is too long for [express.json()]), and ends
    Failed with the message of that status, the text never returned and
    the directive endpoint never called. *)
Theorem text_submission_unrouted (w : Server.World) (s : Client.State) (t : string) :
  let s0 := Client.setTextInput t (Client.setInputMode Client.text s) in
  let r := Client.run (System.axios w) s0 in
  Server.app w (System.request_of "/api/process-text" (Client.Json [("text", Str t)]))
  = None
  /\ if Client.blank t
     then Client.cur r = Client.setError "Please enter some text first." s0
          /\ Client.posts r = []
     else Failed s0 r
            (System.status_error
               (if System.too_large (Client.Json [("text", Str t)]) then 413 else 404)
               Undefined)
          /\ Client.posts r
             = [("/api/process-text", Client.Json [("text", Str t)])].
Proof.
  intros s0 r. split; [reflexivity|].
  subst r. unfold Client.run, Client.startProcess.
  cbn [Client.cur]. subst s0.
  cbn [Client.inputMode Client.textInput Client.setTextInput Client.setInputMode].
  destruct (Client.blank t) eqn:Hblank.
  - split; reflexivity.
  - unfold Client.pipeline, Client.processText.
    cbn [Client.inputMode Client.textInput Client.setTextInput Client.setInputMode].
    unfold Client.bind, Client.try_catch, Client.update, Client.post,
      Client.lift, Client.throw, Client.ret.
    cbn [Client.cur Client.trace Client.posts app].
    rewrite process_text_fails.
    cbn [Client.cur Client.trace Client.posts app fst].
    split; [failed_with|reflexivity].
Qed.

(** The specification's scenario: a text of 150 characters, the default
    options, no credential. The run fails. *)
Example text_of_150_characters_fails :
  let s := Examples.at_options_with_text Examples.text150 in
  let r := Client.run (System.axios Examples.mock_world) s in
  Client.handle Client.Continue
    (Client.setError ""
       (Client.setTextInput Examples.text150
          (Client.setError "" (Client.setInputMode Client.text Client.initial))))
  = Some s
  /\ Client.step (Client.cur r) = 3
  /\ Client.error (Client.cur r)
     = "An error occurred: Request failed with status code 404"
  /\ Client.resultImage (Client.cur r) = Str ""
  /\ Client.posts r
     = [("/api/process-text", Client.Json [("text", Str Examples.text150)])].
Proof. repeat split. Qed.

(** ** Size limits (C2) *)

Lemma over_50MB_refused_at_selection (s : Client.State) (f : Client.File) :
  50 * 1024 * 1024 < Client.size f ->
  Client.handleFileUpload (Some f) s
  = Client.setError "File size exceeds 50MB limit." s.
Proof.
  intros H. unfold Client.handleFileUpload.
  apply Z.ltb_lt in H. now rewrite H.
Qed.

Lemma over_25MB_warned_at_selection (s : Client.State) (f : Client.File) :
  Client.type f = "application/pdf" ->
  25 * 1024 * 1024 < Client.size f <= 50 * 1024 * 1024 ->
  Client.handleFileUpload (Some f) s
  = Client.setFile (Some f) (Client.setError Client.large_file_warning s).
Proof.
  intros Htype [Hlo Hhi]. unfold Client.handleFileUpload.
  apply Z.ltb_lt in Hlo. apply Z.ltb_ge in Hhi.
  now rewrite Hhi, Htype, Hlo.
Qed.

(** Multer ends the upload of a PDF of more than 10MB before the handler
    runs: the PDF parser is not called, and Express answers 500. *)
Lemma over_10MB_refused_by_server (w : Server.World) (f : Client.File) :
  Client.type f = "application/pdf" ->
  10 * 1024 * 1024 < Client.size f ->
  Server.upload_single
    (Some (Server.File (Client.type f) (Client.size f) (Client.bytes f)))
  = Thrown (Error "File too large")
  /\ System.serve w "/api/upload" (Client.Form (Some f))
     = ([], Server.Response 500 Undefined)
  /\ System.axios w "/api/upload" (Client.Form (Some f))
     = Thrown (System.status_error 500 Undefined).
Proof.
  intros Htype Hsize. apply Z.ltb_lt in Hsize.
  assert (Hmulter :
    Server.upload_single
      (Some (Server.File (Client.type f) (Client.size f) (Client.bytes f)))
    = Thrown (Error "File too large")).
  { unfold Server.upload_single, Server.fileFilter, Server.limits_fileSize.
    cbn [Server.mimetype Server.size]. now rewrite Htype, Hsize. }
  assert (Hserve :
    System.serve w "/api/upload" (Client.Form (Some f))
    = ([], Server.Response 500 Undefined)).
  { unfold System.serve, System.request_of, Server.app.
    cbn [System.too_large Server.req_method Server.req_path Server.req_pdf].
    change (System.path_of "/api/upload") with "/api/upload".
    cbn [String.eqb Ascii.eqb Bool.eqb].
    unfold Server.upload_route. now rewrite Hmulter. }
  split; [exact Hmulter|]. split; [exact Hserve|].
  unfold System.axios. now rewrite Hserve.
Qed.

(** A run with a PDF that the selection accepted and the server refuses. *)
Lemma refused_upload_fails_run (w : Server.World) (s : Client.State) (f : Client.File) :
  Client.inputMode s = Client.pdf -> Client.file s = Some f ->
  Client.type f = "application/pdf" ->
  10 * 1024 * 1024 < Client.size f ->
  let r := Client.run (System.axios w) s in
  Failed s r (System.status_error 500 Undefined)
  /\ Client.posts r = [("/api/upload", Client.Form (Some f))].
Proof.
  intros Hmode Hfile Htype Hsize r. subst r.
  rewrite (run_starts_pdf _ s f Hmode Hfile).
  unfold Client.pipeline, Client.uploadPDF. rewrite Hmode, Hfile.
  unfold Client.bind, Client.try_catch, Client.update, Client.post,
    Client.lift, Client.throw, Client.ret.
  cbn [Client.cur Client.trace Client.posts app].
  destruct (over_10MB_refused_by_server w f Htype Hsize) as (_ & _ & ->).
  cbn [Client.cur Client.trace Client.posts app fst].
  split; [failed_with|reflexivity].
Qed.

(** C2 fails on the code in its last clause. A PDF of 30MB, above the
    client's soft threshold of 25MB and below its ceiling of 50MB, is kept
    at selection with the warning; the run then uploads it, the server's
    multer limit of 10MB refuses it before the PDF parser is called, and
    the run ends Failed after that one request, for every server world. *)
Theorem warned_pdf_is_refused (w : Server.World) (s : Client.State) :
  let f := Examples.pdf_of_size (30 * 1024 * 1024) in
  let s1 := Client.handleFileUpload (Some f) (Client.setInputMode Client.pdf s) in
  let r := Client.run (System.axios w) s1 in
  s1 = Client.setFile (Some f)
         (Client.setError Client.large_file_warning (Client.setInputMode Client.pdf s))
  /\ Server.upload_single
       (Some (Server.File (Client.type f) (Client.size f) (Client.bytes f)))
     = Thrown (Error "File too large")
  /\ System.serve w "/api/upload" (Client.Form (Some f))
     = ([], Server.Response 500 Undefined)
  /\ Failed s1 r (System.status_error 500 Undefined)
  /\ Client.error (Client.cur r)
     = "An error occurred: Request failed with status code 500"
  /\ Client.posts r = [("/api/upload", Client.Form (Some f))].
Proof.
  intros f s1 r.
  assert (Hs1 : s1 = Client.setFile (Some f)
                  (Client.setError Client.large_file_warning
                     (Client.setInputMode Client.pdf s))) by reflexivity.
  destruct (over_10MB_refused_by_server w f eq_refl eq_refl) as (Hm & Hs & _).
  destruct (refused_upload_fails_run w s1 f eq_refl eq_refl eq_refl eq_refl)
    as (Hfailed & Hposts).
  destruct Hfailed as (Hstep & Herr & Himage).
  repeat split; assumption.
Qed.

(** The first clause of C2 does hold: a file of more than 50MB, like the
    60MB of the scenario, is refused at selection with the size message,
    the file in the state stays what it was, and nothing is sent. *)
Example pdf_of_60MB_refused_at_selection (s : Client.State) :
  Client.handleFileUpload (Some (Examples.pdf_of_size (60 * 1024 * 1024))) s
  = Client.setError "File size exceeds 50MB limit." s.
Proof. now apply over_50MB_refused_at_selection. Qed.

(** ** The wizard's invariant *)

Lemma run_started (http : Client.Http) (s : Client.State) :
  starts s = true ->
  Client.run http s
  = fst ((Client.bind (Client.update (Client.setStep 3)) (fun _ =>
          Client.bind (Client.update (Client.setError "")) (fun _ =>
          Client.try_catch (Client.pipeline http s)
            (fun err => Client.update
               (Client.setError ("An error occurred: " ++ Client.message_or_unknown err))))))
         {| Client.cur := s; Client.trace := []; Client.posts := [] |}).
Proof.
  unfold starts. intros Hstarts.
  destruct (Client.inputMode s) eqn:Hmode.
  - destruct (Client.file s) as [f|] eqn:Hfile; [|discriminate].
    now apply run_starts_pdf with (f := f).
  - apply negb_true_iff in Hstarts. now apply run_starts_text.
Qed.

(** A run that does not start shows a message and changes nothing else. *)
Lemma run_refused (http : Client.Http) (s : Client.State) :
  starts s = false ->
  exists msg,
    Client.run http s
    = {| Client.cur := Client.setError msg s;
         Client.trace := [Client.setError msg s];
         Client.posts := [] |}.
Proof.
  unfold starts, Client.run, Client.startProcess. cbn [Client.cur].
  destruct (Client.inputMode s).
  - destruct (Client.file s); [discriminate|]. intros _. eexists. reflexivity.
  - intros Hblank. apply negb_false_iff in Hblank. rewrite Hblank.
    destruct (Client.file s); eexists; reflexivity.
Qed.

(** The invariant after an event that leaves the result view closed. *)
Ltac off_result_view Hslot :=
  cbn [Client.step Client.resultImage Client.error Client.reset
       Client.setStep Client.setError Client.setStatus Client.setPdfText
       Client.setResultImage Client.setFile Client.setInputMode
       Client.setTextInput Client.setOptions Client.setShowAdvanced];
  split; [lia|split];
  [ intros ?; exfalso; lia
  | intros ?; first [reflexivity | apply Hslot; lia] ].

(** In every state a session can reach, the step is one of the four; on
    the result view the image reference is truthy and no error is shown;
    off the result view the image slot is empty. *)
Theorem result_view_has_artifact (s : Client.State) :
  Client.reachable s ->
  1 <= Client.step s <= 4
  /\ (Client.step s = 4 ->
      truthy (Client.resultImage s) = true /\ Client.error s = "")
  /\ (Client.step s <> 4 -> Client.resultImage s = Str "").
Proof.
  induction 1 as [|s ev s' Hreach IH Hev].
  - cbn. split; [lia|split]; [discriminate|reflexivity].
  - destruct IH as (Hrange & Hview & Hslot).
    destruct ev; cbn [Client.handle] in Hev.
    + destruct (Client.inputMode s); [|discriminate].
      destruct (Z.eqb_spec (Client.step s) 1) as [Hs|]; [|discriminate].
      injection Hev as <-.
      assert (Hkeep : Client.step (Client.handleFileUpload f s) = Client.step s
                      /\ Client.resultImage (Client.handleFileUpload f s)
                         = Client.resultImage s).
      { unfold Client.handleFileUpload. destruct f as [f|]; [|auto].
        repeat match goal with
          | |- context [if ?b then _ else _] => destruct b
          end; auto. }
      destruct Hkeep as [-> ->]. off_result_view Hslot.
    + destruct (Z.eqb_spec (Client.step s) 1) as [Hs|]; [|discriminate].
      injection Hev as <-. off_result_view Hslot.
    + destruct (Client.inputMode s); [discriminate|].
      destruct (Z.eqb_spec (Client.step s) 1) as [Hs|]; [|discriminate].
      injection Hev as <-. off_result_view Hslot.
    + destruct (Z.eqb_spec (Client.step s) 1) as [Hs|]; [|discriminate].
      destruct (Client.continue_disabled s); [discriminate|].
      injection Hev as <-. off_result_view Hslot.
    + destruct (Z.eqb_spec (Client.step s) 2) as [Hs|]; [|discriminate].
      injection Hev as <-. off_result_view Hslot.
    + destruct (Z.eqb_spec (Client.step s) 2) as [Hs|]; [|discriminate].
      injection Hev as <-. off_result_view Hslot.
    + destruct (Z.eqb_spec (Client.step s) 2) as [Hs|]; [|discriminate].
      injection Hev as <-. off_result_view Hslot.
    + destruct (Z.eqb_spec (Client.step s) 2) as [Hs|]; [|discriminate].
      injection Hev as <-.
      assert (Hempty : Client.resultImage s = Str "") by (apply Hslot; lia).
      destruct (starts s) eqn:Hstarts.
      * pose proof (started_run_atomic http s) as Hrun.
        rewrite <- (run_started http s Hstarts) in Hrun.
        destruct Hrun as ([Hc | [err Hf]] & _).
        -- destruct Hc as (H4 & Htruthy & Herr & _).
           rewrite H4. split; [lia|split]; [auto|congruence].
        -- destruct Hf as (H3 & _ & Himage).
           rewrite H3, Himage. split; [lia|split]; [discriminate|auto].
      * destruct (run_refused http s Hstarts) as [msg ->].
        cbn [Client.cur]. off_result_view Hslot.
    + destruct (Z.eqb_spec (Client.step s) 3) as [Hs|]; [|discriminate].
      destruct (negb _); [|discriminate].
      injection Hev as <-. off_result_view Hslot.
    + destruct (Z.eqb_spec (Client.step s) 4) as [Hs|]; [|discriminate].
      injection Hev as <-. off_result_view Hslot.
Qed.

(** ** Further properties of the wizard *)

Lemma play_reachable (evs : list Client.event) (s s' : Client.State) :
  Client.reachable s -> Client.play evs s = Some s' -> Client.reachable s'.
Proof.
  revert s. induction evs as [|ev evs IH]; intros s Hs; cbn [Client.play].
  - now intros [= <-].
  - destruct (Client.handle ev s) as [s1|] eqn:Hev; [|discriminate].
    apply IH. now apply Client.reach_step with (s := s) (ev := ev).
Qed.

(** The invariant at the state after choosing a PDF of 1KB, continuing and
    generating against the server without credential. *)
Lemma result_view_has_artifact_witness :
  match Client.play
          [Client.SelectFile (Some (Examples.pdf_of_size 1024));
           Client.Continue;
           Client.Generate (System.axios Examples.mock_world)]
          Client.initial with
  | Some s =>
      1 <= Client.step s <= 4
      /\ (Client.step s = 4 ->
          truthy (Client.resultImage s) = true /\ Client.error s = "")
      /\ (Client.step s <> 4 -> Client.resultImage s = Str "")
  | None => True
  end.
Proof.
  destruct (Client.play _ Client.initial) as [s|] eqn:Hplay; [|exact I].
  apply result_view_has_artifact.
  exact (play_reachable _ _ _ Client.reach_initial Hplay).
Defined.

(** The size test of the file input, for every state and file: above 50MB
    the file is refused with the size message and the state's file stays;
    a PDF above 25MB and up to 50MB is kept with the warning; a PDF of at
    most 25MB is kept and the message cleared. *)
Theorem selection_size_check (s : Client.State) (f : Client.File) :
  (50 * 1024 * 1024 < Client.size f ->
   Client.handleFileUpload (Some f) s
   = Client.setError "File size exceeds 50MB limit." s)
  /\ (Client.type f = "application/pdf" ->
      25 * 1024 * 1024 < Client.size f <= 50 * 1024 * 1024 ->
      Client.handleFileUpload (Some f) s
      = Client.setFile (Some f) (Client.setError Client.large_file_warning s))
  /\ (Client.type f = "application/pdf" ->
      Client.size f <= 25 * 1024 * 1024 ->
      Client.handleFileUpload (Some f) s
      = Client.setFile (Some f) (Client.setError "" s)).
Proof.
  split; [|split].
  - apply over_50MB_refused_at_selection.
  - apply over_25MB_warned_at_selection.
  - intros Htype Hsize. unfold Client.handleFileUpload.
    assert (H50 : (50 * 1024 * 1024 <? Client.size f) = false)
      by (apply Z.ltb_ge; lia).
    assert (H25 : (25 * 1024 * 1024 <? Client.size f) = false)
      by (apply Z.ltb_ge; lia).
    now rewrite H50, Htype, H25.
Qed.

(** The size test at the 60MB of the specification's scenario. *)
Lemma selection_size_check_witness :
  Client.handleFileUpload (Some (Examples.pdf_of_size (60 * 1024 * 1024)))
    Client.initial
  = Client.setError "File size exceeds 50MB limit." Client.initial.
Proof.
  exact (proj1 (selection_size_check Client.initial
                  (Examples.pdf_of_size (60 * 1024 * 1024))) eq_refl).
Defined.

(** The text gate at a text of 150 characters. *)
Lemma continue_needs_100_characters_witness :
  Client.handle Client.Continue
    (Client.setTextInput Examples.text150
       (Client.setInputMode Client.text Client.initial))
  = Some (Client.setStep 2
            (Client.setTextInput Examples.text150
               (Client.setInputMode Client.text Client.initial)))
  <-> (100 <= String.length Examples.text150)%nat.
Proof.
  exact (continue_needs_100_characters
           (Client.setTextInput Examples.text150
              (Client.setInputMode Client.text Client.initial))
           eq_refl eq_refl).
Defined.

(* ================================================================== *)
(** * Further properties of the server and of the runs                  *)
(* ================================================================== *)

(** ** The upload route *)






Lemma extract_image_status (data : value) (l : list Server.call) (resp : Server.response) :
  Server.extract_image data = (l, Ok resp) -> Server.status resp = 200.
Proof.
  unfold Server.extract_image, Server.bind, Server.lift, Server.ret, Server.throw.
  repeat match goal with
    | |- context [match ?x with Ok _ => _ | Thrown _ => _ end] => destruct x
    | |- context [if ?b then _ else _] => destruct b
    end; cbn; intros [= <- <-] || discriminate; reflexivity.
Qed.


Ltac tidy_done :=
  unfold tidy;
  cbn [Server.calls Server.outcome fst snd length app Server.status Server.ret
       Server.json Server.status_json Server.lift Server.bind Server.try_catch];
  split; [lia|split];
  [ intros resp Hresp;
    first
      [ discriminate Hresp
      | injection Hresp as <-; cbn [Server.status]; split;
        [ auto | intros Hst; first [reflexivity | discriminate Hst] ] ]
  | intros ? He; first [reflexivity | discriminate He] ].

Lemma status_route_tidy w : tidy (Server.status_route w).
Proof. unfold Server.status_route. tidy_done. Qed.

Lemma upload_route_tidy w f : tidy (Server.upload_route w f).
Proof.
  unfold Server.upload_route.
  destruct (Server.upload_single f) as [[x|]|e];
    cbn [Server.lift Server.bind Server.try_catch Server.ret app];
    [|tidy_done|tidy_done].
  unfold Server.call_pdfParse. destruct (Server.pdfParse w _);
    cbn [Server.lift Server.bind Server.try_catch Server.ret app]; tidy_done.
Qed.

Lemma generate_prompt_route_tidy w body : tidy (Server.generate_prompt_route w body).
Proof.
  unfold Server.generate_prompt_route.
  destruct (negb _ || _ || _ || _); [tidy_done|].
  destruct (Server.systemPrompt _ _ _ _) as [p|e];
    cbn [Server.lift Server.bind Server.try_catch Server.ret app]; [|tidy_done].
  destruct (truthy (Server.API_KEY w)); [|tidy_done].
  unfold Server.call_generateContent.
  destruct (Server.generateContent w p) as [content|e];
    cbn [Server.lift Server.bind Server.try_catch Server.ret app]; [|tidy_done].
  rewrite parse_reply_cases.
  destruct (Server.JSON_parse w _) as [parsed|e]; [|tidy_done].
  destruct (get parsed "prompt"); tidy_done.
Qed.

Lemma generate_infographic_route_tidy w body :
  tidy (Server.generate_infographic_route w body).
Proof.
  unfold Server.generate_infographic_route.
  destruct (negb _); [tidy_done|].
  destruct (truthy (Server.API_KEY w)); [|tidy_done].
  unfold Server.call_image_post.
  destruct (Server.image_post w _ _) as [data|e];
    cbn [Server.lift Server.bind Server.try_catch Server.ret app]; [|tidy_done].
  pose proof (extract_image_silent data) as Hsilent.
  destruct (Server.extract_image data) as [l [resp|e]] eqn:Hx;
    unfold silent, Server.calls in Hsilent; cbn [fst] in Hsilent; subst l.
  - pose proof (extract_image_status _ _ _ Hx) as Hst.
    unfold tidy.
    cbn [Server.calls Server.outcome fst snd length app Server.lift Server.bind
         Server.try_catch].
    split; [lia|split]; [|discriminate].
    intros r [= <-]. rewrite Hst. split; [auto|discriminate].
  - tidy_done.
Qed.

(** Whatever the request and the services do, a route calls the outside
    at most once and answers with 200, 400 or 500; a 400 and an error that
    leaves the route come before any call. *)
Theorem one_call_per_request (w : Server.World) (r : Server.request)
    (m : Server.M Server.response) :
  Server.app w r = Some m ->
  (length (Server.calls m) <= 1)%nat
  /\ (forall resp, Server.outcome m = Ok resp ->
        (Server.status resp = 200 \/ Server.status resp = 400
         \/ Server.status resp = 500)
        /\ (Server.status resp = 400 -> Server.calls m = []))
  /\ (forall e, Server.outcome m = Thrown e -> Server.calls m = []).
Proof.
  unfold Server.app.
  destruct (Server.req_method r).
  - destruct (_ =? _)%string; [|discriminate]. intros [= <-]. apply status_route_tidy.
  - repeat match goal with
      | |- context [if ?b then _ else _] => destruct b
      end; try discriminate; intros [= <-].
    + apply upload_route_tidy.
    + apply generate_prompt_route_tidy.
    + apply generate_infographic_route_tidy.
Qed.

(** The bound at an upload that multer refuses. *)
Lemma one_call_per_request_witness :
  (length (Server.calls
             (Server.upload_route Examples.failing_world
                (Some (Server.File "text/plain" 1024 "hello")))) <= 1)%nat.
Proof.
  exact (proj1 (one_call_per_request Examples.failing_world
                  Examples.text_file_request _ eq_refl)).
Defined.








Lemma API_KEY_credential (w : Server.World) :
  match credential w with
  | Some k => Server.API_KEY w = Str k /\ k <> ""
  | None => truthy (Server.API_KEY w) = false
  end.
Proof.
  unfold credential, Server.API_KEY, Server.or_else, configured, Server.env_value.
  destruct (Server.LLM_API_KEY w) as [a|], (Server.NANO_BANANA_API_KEY w) as [b|];
    cbn [truthy];
    repeat match goal with
      | |- context [(?x =? "")%string] => destruct (String.eqb_spec x "")
      end; cbn [negb truthy]; subst; auto;
    repeat match goal with
      | |- context [(?x =? "")%string] => destruct (String.eqb_spec x "")
      end; cbn [negb]; auto; congruence.
Qed.

Lemma credential_live (w : Server.World) (k : string) :
  credential w = Some k ->
  Server.API_KEY w = Str k /\ truthy (Server.API_KEY w) = true.
Proof.
  intros Hk. pose proof (API_KEY_credential w) as Hkey. rewrite Hk in Hkey.
  destruct Hkey as [Hkey Hne]. split; [exact Hkey|].
  rewrite Hkey. cbn. now destruct (String.eqb_spec k "").
Qed.

(** With a credential, a failure of the language model on a valid request
    is answered with 500 and "Failed to generate prompt: " before the
    error's message; a failure of the image service with 500 and "Failed to
    generate infographic: " before the JSON of the service's error body, or
    before the message when there is no body. Each after the one call. *)
Theorem upstream_failures_reported (w : Server.World)
    (body : list (string * value)) (k : string) (e : exn) :
  credential w = Some k ->
  (forall t,
     all_present body = true -> lookup "text" body = Str t ->
     Server.generateContent w
       (Server.systemPrompt_head ++ Js.substring t 0 10000
        ++ Server.systemPrompt_tail (lookup "audience" body)
             (lookup "terms" body) (lookup "focus" body)) = Thrown e ->
     Server.generate_prompt_route w body
     = ([Server.GenerateContent
           (Server.systemPrompt_head ++ Js.substring t 0 10000
            ++ Server.systemPrompt_tail (lookup "audience" body)
                 (lookup "terms" body) (lookup "focus" body))],
        Ok (Server.Response 500
              (Obj [("error", Str ("Failed to generate prompt: " ++ message e))]))))
  /\ (truthy (lookup "prompt" body) = true ->
      Server.image_post w (Str k) (lookup "prompt" body) = Thrown e ->
      Server.generate_infographic_route w body
      = ([Server.ImagePost (Str k) (lookup "prompt" body)],
         Ok (Server.Response 500
               (Obj [("error",
                      Str ("Failed to generate infographic: "
                           ++ match response_data e with
                              | Some data => Server.JSON_stringify w data
                              | None => message e
                              end))])))).
Proof.
  intros Hk. destruct (credential_live w k Hk) as [Hkey Hlive].
  split.
  - intros t Hall Ht Hfail. unfold Server.generate_prompt_route.
    rewrite guard_all_present, Hall, Ht, Hlive.
    unfold Server.systemPrompt, call_substring, Server.call_generateContent.
    cbn [negb Server.lift Server.bind app]. now rewrite Hfail.
  - intros Hprompt Hfail. unfold Server.generate_infographic_route.
    rewrite Hprompt, Hlive, Hkey. cbn [negb].
    unfold Server.call_image_post. now rewrite Hfail.
Qed.

(** The image service out of reach. *)
Lemma upstream_failures_reported_witness :
  Server.generate_infographic_route Examples.failing_world
    [("prompt", Str "Draw a cell.")]
  = ([Server.ImagePost (Str "key") (Str "Draw a cell.")],
     Ok (Server.Response 500
           (Obj [("error", Str "Failed to generate infographic: Network Error")]))).
Proof.
  exact (proj2 (upstream_failures_reported Examples.failing_world
                  [("prompt", Str "Draw a cell.")] "key" (Error "Network Error")
                  eq_refl) eq_refl eq_refl).
Defined.

(** A request with a prompt makes the artifact route post that prompt once
    with the configured credential, the first of the two variables that
    holds one; without a credential it posts nothing. *)
Theorem artifact_call (w : Server.World) (body : list (string * value)) :
  truthy (lookup "prompt" body) = true ->
  Server.calls (Server.generate_infographic_route w body)
  = match credential w with
    | Some k => [Server.ImagePost (Str k) (lookup "prompt" body)]
    | None => []
    end.
Proof.
  intros Hprompt. pose proof (API_KEY_credential w) as Hkey.
  destruct (credential w) as [k|] eqn:Hk.
  - destruct (credential_live w k Hk) as [Hkey' Hlive].
    rewrite generate_infographic_live_calls; auto. now rewrite Hkey'.
  - now rewrite generate_infographic_mock, Hprompt.
Qed.

(** The post of a server with a credential. *)
Lemma artifact_call_witness :
  Server.calls (Server.generate_infographic_route Examples.failing_world
                  [("prompt", Str "Draw a cell.")])
  = [Server.ImagePost (Str "key") (Str "Draw a cell.")].
Proof.
  exact (artifact_call Examples.failing_world [("prompt", Str "Draw a cell.")]
           eq_refl).
Defined.

(** ** Strings *)

Lemma length_append (a b : string) :
  String.length (a ++ b) = (String.length a + String.length b)%nat.
Proof. induction a as [|c a IH]; simpl; [reflexivity|now rewrite IH]. Qed.

Lemma append_assoc (a b c : string) : (a ++ b) ++ c = a ++ b ++ c.
Proof. induction a as [|x a IH]; simpl; [reflexivity|now rewrite IH]. Qed.

Lemma has_append (c : ascii) (a b : string) :
  has c (a ++ b) = has c a || has c b.
Proof.
  induction a as [|x a IH]; simpl; [reflexivity|].
  now rewrite IH, orb_assoc.
Qed.

(** ** The length of the prompt *)

(** The instruction for the model has the 776 characters of the template,
    at most 10000 of the text, and the three options as they came. *)
Theorem prompt_length (t audience terms focus : string) :
  exists p,
    Server.systemPrompt (Str t) (Str audience) (Str terms) (Str focus) = Ok p
    /\ Z.of_nat (String.length p)
       = 776 + Z.min (Z.of_nat (String.length t)) 10000
         + Z.of_nat (String.length audience) + Z.of_nat (String.length terms)
         + Z.of_nat (String.length focus).
Proof.
  eexists. split; [reflexivity|].
  rewrite js_substring_0. unfold Server.systemPrompt_tail. cbn [to_string].
  rewrite !length_append, take_length.
  change (String.length Server.systemPrompt_head) with 154%nat.
  change (String.length Server.systemPrompt_task) with 549%nat.
  cbn [String.length Server.nl]. lia.
Qed.

(** ** The span of the match *)

Lemma after_open_some (s r : string) :
  Server.after_open s = Some r ->
  exists pre, s = pre ++ String "{" r /\ has "{" pre = false.
Proof.
  revert r. induction s as [|c s IH]; simpl; [discriminate|].
  intros r. destruct (Ascii.eqb_spec c "{") as [->|Hc].
  - intros [= <-]. exists "". split; reflexivity.
  - intros Hr. destruct (IH r Hr) as (pre & -> & Hpre).
    exists (String c pre). split; [reflexivity|].
    simpl. rewrite Hpre. now destruct (Ascii.eqb_spec c "{").
Qed.

Lemma after_open_none (s : string) :
  Server.after_open s = None <-> has "{" s = false.
Proof.
  induction s as [|c s IH]; simpl; [tauto|].
  destruct (Ascii.eqb_spec c "{"); simpl; [split; discriminate|exact IH].
Qed.

Lemma upto_last_close_some (s p : string) :
  Server.upto_last_close s = Some p ->
  exists body post, p = body ++ "}" /\ s = p ++ post /\ has "}" post = false.
Proof.
  revert p. induction s as [|c s IH]; simpl; [discriminate|].
  intros p. destruct (Server.upto_last_close s) as [q|] eqn:Hq.
  - intros [= <-]. destruct (IH q eq_refl) as (body & post & -> & -> & Hpost).
    exists (String c body), post. repeat split; auto.
  - destruct (Ascii.eqb_spec c "}") as [->|Hc]; [|discriminate].
    intros [= <-]. exists "", s. repeat split.
    clear IH. induction s as [|d s IHs]; [reflexivity|].
    simpl in Hq. destruct (Server.upto_last_close s); [discriminate|].
    destruct (Ascii.eqb_spec d "}"); [discriminate|].
    simpl. destruct (Ascii.eqb_spec d "}"); [contradiction|]. auto.
Qed.

Lemma upto_last_close_none (s : string) :
  Server.upto_last_close s = None <-> has "}" s = false.
Proof.
  induction s as [|c s IH]; simpl; [tauto|].
  destruct (Server.upto_last_close s).
  - split; [discriminate|].
    destruct (Ascii.eqb_spec c "}"); simpl; [discriminate|].
    intros H. apply IH in H. discriminate.
  - destruct (Ascii.eqb_spec c "}"); simpl; [split; discriminate|].
    split; intros _; [now apply IH|reflexivity].
Qed.

(** A closing brace after some opening brace lies after the first one. *)
Lemma close_after_first_open (pre' r pre body post : string) :
  pre' ++ String "{" r = pre ++ String "{" (body ++ String "}" post) ->
  has "{" pre' = false ->
  has "}" r = true.
Proof.
  revert pre. induction pre' as [|c pre' IH]; intros pre Heq Hpre'.
  - destruct pre as [|d pre]; simpl in Heq.
    + injection Heq as ->. rewrite has_append. simpl. apply orb_true_r.
    + injection Heq as _ ->. rewrite !has_append. simpl.
      rewrite has_append. simpl. now rewrite !orb_true_r.
  - simpl in Hpre'. apply orb_false_iff in Hpre' as [Hc Hpre'].
    destruct pre as [|d pre]; simpl in Heq.
    + injection Heq as -> _. discriminate.
    + injection Heq as _ Heq. now apply (IH pre).
Qed.

(** The match of [/\{[\s\S]*\}/]: from the first opening brace of the
    reply to its last closing brace; and there is none exactly when no
    closing brace follows an opening one. *)
Theorem jsonMatch_span (content : string) :
  (forall m, Server.jsonMatch content = Some m ->
     exists pre body post,
       content = pre ++ m ++ post
       /\ m = "{" ++ body ++ "}"
       /\ has "{" pre = false /\ has "}" post = false)
  /\ (Server.jsonMatch content = None <->
      forall pre body post, content <> pre ++ "{" ++ body ++ "}" ++ post).
Proof.
  unfold Server.jsonMatch. split.
  - intros m. destruct (Server.after_open content) as [r|] eqn:Hr; [|discriminate].
    destruct (Server.upto_last_close r) as [p|] eqn:Hp; [|discriminate].
    intros [= <-].
    destruct (after_open_some _ _ Hr) as (pre & -> & Hpre).
    destruct (upto_last_close_some _ _ Hp) as (body & post & -> & -> & Hpost).
    exists pre, body, post. repeat split; auto.
  - split.
    + intros Hnone pre body post Heq.
      destruct (Server.after_open content) as [r|] eqn:Hr.
      * destruct (Server.upto_last_close r) eqn:Hp; [discriminate|].
        apply upto_last_close_none in Hp.
        destruct (after_open_some _ _ Hr) as (pre' & Heq' & Hpre').
        rewrite Heq' in Heq.
        rewrite (close_after_first_open pre' r pre body post Heq Hpre') in Hp.
        discriminate.
      * apply after_open_none in Hr. rewrite Heq in Hr.
        rewrite has_append in Hr. simpl in Hr.
        rewrite orb_true_r in Hr. discriminate.
    + intros Hno. destruct (Server.after_open content) as [r|] eqn:Hr; [|reflexivity].
      destruct (Server.upto_last_close r) as [p|] eqn:Hp; [|reflexivity].
      destruct (after_open_some _ _ Hr) as (pre & -> & _).
      destruct (upto_last_close_some _ _ Hp) as (body & post & -> & -> & _).
      exfalso. apply (Hno pre body post). simpl. now rewrite !append_assoc.
Qed.

(** A reply with two objects between two sentences. *)
Lemma jsonMatch_span_witness :
  exists pre body post,
    "Sure! {a}{b} Done." = pre ++ "{a}{b}" ++ post
    /\ "{a}{b}" = "{" ++ body ++ "}"
    /\ has "{" pre = false /\ has "}" post = false.
Proof.
  exact (proj1 (jsonMatch_span "Sure! {a}{b} Done.") "{a}{b}" eq_refl).
Defined.

(** ** The order of the stages *)

Ltac unfold_run :=
  unfold Client.pipeline, Client.uploadPDF, Client.processText,
    Client.generatePrompt, Client.generatePrompt4, Client.generateInfographic;
  unfold Client.bind, Client.try_catch, Client.update, Client.post,
    Client.lift, Client.throw, Client.ret.

Ltac known := first [eassumption | reflexivity].

Ltac stage_leaf :=
  cbn [Client.cur Client.trace Client.posts app negb fst snd];
  first
    [ left; split; [reflexivity|]; intros; congruence
    | right; eexists _, _; split; [known|]; split; [known|];
      first
        [ left; split; [reflexivity|]; intros; congruence
        | right; eexists _, _; split; [known|]; split; [known|];
          reflexivity ] ].

Lemma started_run_stages (http : Client.Http) (s : Client.State) :
  let r := fst ((Client.bind (Client.update (Client.setStep 3)) (fun _ =>
          Client.bind (Client.update (Client.setError "")) (fun _ =>
          Client.try_catch (Client.pipeline http s)
            (fun err => Client.update
               (Client.setError ("An error occurred: " ++ Client.message_or_unknown err))))))
         {| Client.cur := s; Client.trace := []; Client.posts := [] |}) in
  let q1 := extraction_request s in
  (Client.posts r = [q1]
   /\ forall res1 t, sent http q1 = Ok res1 -> get res1 "text" = Ok t -> False)
  \/ exists res1 t,
       sent http q1 = Ok res1 /\ get res1 "text" = Ok t
       /\ ((Client.posts r = [q1; directive_request s t]
            /\ forall res2 prompt,
                 sent http (directive_request s t) = Ok res2 ->
                 get res2 "prompt" = Ok prompt -> False)
           \/ exists res2 prompt,
                sent http (directive_request s t) = Ok res2
                /\ get res2 "prompt" = Ok prompt
                /\ Client.posts r
                   = [q1; directive_request s t; artifact_request prompt]).
Proof.
  intros r q1. subst r q1.
  unfold sent, extraction_request, directive_request, artifact_request.
  unfold_run.
  destruct (Client.inputMode s); cbn [fst snd]; repeat run_step.
  all: stage_leaf.
Qed.

(** The requests of a run that starts go out in the order of the stages,
    each carrying what the one before returned, and the run stops at the
    first stage that gives nothing. *)
Theorem stages_in_order (http : Client.Http) (s : Client.State) :
  starts s = true -> staged http s (Client.run http s).
Proof.
  intros Hstarts. rewrite (run_started http s Hstarts).
  apply started_run_stages.
Qed.

(** The order at a run on the server without credential. *)
Lemma stages_in_order_witness :
  staged (System.axios Examples.mock_world)
    (Examples.at_options_with (Examples.pdf_of_size 1024))
    (Client.run (System.axios Examples.mock_world)
       (Examples.at_options_with (Examples.pdf_of_size 1024))).
Proof.
  exact (stages_in_order (System.axios Examples.mock_world)
           (Examples.at_options_with (Examples.pdf_of_size 1024)) eq_refl).
Defined.

(** ** A run reads its inputs and nothing else *)

Lemma started_run_same_inputs (http : Client.Http) (s s' : Client.State) :
  same_inputs s s' ->
  let run_of := fun s =>
    fst ((Client.bind (Client.update (Client.setStep 3)) (fun _ =>
          Client.bind (Client.update (Client.setError "")) (fun _ =>
          Client.try_catch (Client.pipeline http s)
            (fun err => Client.update
               (Client.setError ("An error occurred: " ++ Client.message_or_unknown err))))))
         {| Client.cur := s; Client.trace := []; Client.posts := [] |}) in
  Client.posts (run_of s) = Client.posts (run_of s')
  /\ Client.error (Client.cur (run_of s)) = Client.error (Client.cur (run_of s'))
  /\ Client.step (Client.cur (run_of s)) = Client.step (Client.cur (run_of s'))
  /\ Client.status (Client.cur (run_of s)) = Client.status (Client.cur (run_of s'))
  /\ (Client.step (Client.cur (run_of s)) = 4 ->
      Client.resultImage (Client.cur (run_of s))
      = Client.resultImage (Client.cur (run_of s'))).
Proof.
  intros (Hmode & Hfile & Htext & Hoptions) run_of. subst run_of.
  cbv beta. unfold Client.pipeline.
  rewrite <- Hmode, <- Hfile, <- Htext, <- Hoptions. unfold_run.
  destruct (Client.inputMode s); repeat run_step.
  all: cbn [Client.cur Client.trace Client.posts app negb fst snd];
    state_fields; repeat split; first [reflexivity | intros H4; discriminate H4].
Qed.

(** The inputs of the state are the same in every state of a run. *)
Lemma started_run_keeps_inputs (http : Client.Http) (s : Client.State) :
  let r := fst ((Client.bind (Client.update (Client.setStep 3)) (fun _ =>
          Client.bind (Client.update (Client.setError "")) (fun _ =>
          Client.try_catch (Client.pipeline http s)
            (fun err => Client.update
               (Client.setError ("An error occurred: " ++ Client.message_or_unknown err))))))
         {| Client.cur := s; Client.trace := []; Client.posts := [] |}) in
  Forall (same_inputs s) (Client.trace r) /\ same_inputs s (Client.cur r).
Proof.
  intros r. subst r. unfold_run.
  destruct (Client.inputMode s) eqn:Hmode; repeat run_step.
  all: cbn [Client.cur Client.trace Client.posts app negb fst snd];
    split; repeat constructor.
Qed.

Lemma same_inputs_starts (s s' : Client.State) :
  same_inputs s s' -> starts s' = starts s.
Proof.
  unfold same_inputs, starts. intros (Hmode & Hfile & Htext & _).
  now rewrite Hmode, Hfile, Htext.
Qed.

(** A click on Generate reads the input mode, the file, the text and the
    options of the state and nothing else of it. *)
Theorem rerun_same_requests (http : Client.Http) (s s' : Client.State) :
  same_inputs s s' ->
  Client.posts (Client.run http s) = Client.posts (Client.run http s')
  /\ Client.error (Client.cur (Client.run http s))
     = Client.error (Client.cur (Client.run http s'))
  /\ (starts s = true ->
      Client.step (Client.cur (Client.run http s))
      = Client.step (Client.cur (Client.run http s'))
      /\ Client.status (Client.cur (Client.run http s))
         = Client.status (Client.cur (Client.run http s'))
      /\ (Client.step (Client.cur (Client.run http s)) = 4 ->
          Client.resultImage (Client.cur (Client.run http s))
          = Client.resultImage (Client.cur (Client.run http s')))).
Proof.
  intros Hsame. pose proof (same_inputs_starts s s' Hsame) as Hstarts'.
  destruct (starts s) eqn:Hstarts.
  - rewrite (run_started http s Hstarts), (run_started http s' Hstarts').
    destruct (started_run_same_inputs http s s' Hsame) as (H1 & H2 & H3 & H4 & H5).
    repeat split; auto.
  - destruct Hsame as (Hmode & Hfile & Htext & _).
    unfold starts in Hstarts. unfold Client.run, Client.startProcess.
    cbn [Client.cur]. rewrite <- Hmode, <- Hfile, <- Htext.
    destruct (Client.inputMode s).
    + destruct (Client.file s); [discriminate|].
      repeat split; try reflexivity; discriminate.
    + apply negb_false_iff in Hstarts. rewrite Hstarts.
      destruct (Client.file s); repeat split; try reflexivity; discriminate.
Qed.

(** Two states that differ in step and error alone. *)
Lemma rerun_same_requests_witness :
  Client.posts
    (Client.run (System.axios Examples.mock_world)
       (Examples.at_options_with_text Examples.text150))
  = Client.posts
      (Client.run (System.axios Examples.mock_world)
         (Client.setStep 3
            (Client.setError "An error occurred: Request failed with status code 404"
               (Examples.at_options_with_text Examples.text150)))).
Proof.
  refine (proj1 (rerun_same_requests (System.axios Examples.mock_world)
                   (Examples.at_options_with_text Examples.text150) _ _)).
  repeat split.
Defined.

(** A run writes the step, the text read, the status, the image and the
    error: the inputs stay as they were in every state it goes through. *)
Theorem run_leaves_inputs (http : Client.Http) (s : Client.State) :
  Forall (same_inputs s) (Client.trace (Client.run http s))
  /\ same_inputs s (Client.cur (Client.run http s)).
Proof.
  destruct (starts s) eqn:Hstarts.
  - rewrite (run_started http s Hstarts). apply started_run_keeps_inputs.
  - destruct (run_refused http s Hstarts) as [msg ->].
    cbn [Client.trace Client.cur]. split; repeat constructor.
Qed.

(** ** The earlier versions *)

(** In PDF mode with a file, the [startProcess] of the App without the
    text mode does what the current one does: the same states, the same
    requests. *)
Theorem earlier_version_agrees (http : Client.Http) (s : Client.State) (f : Client.File) :
  Client.inputMode s = Client.pdf -> Client.file s = Some f ->
  Client.run_pdf_only http s = Client.run http s.
Proof.
  intros Hmode Hfile. rewrite (run_starts_pdf http s f Hmode Hfile).
  unfold Client.run_pdf_only, Client.startProcess_pdf_only.
  cbn [Client.cur]. unfold Client.pipeline. rewrite Hmode. unfold_run.
  repeat run_step.
  all: reflexivity.
Qed.

(** Both versions on a PDF of 1KB. *)
Lemma earlier_version_agrees_witness :
  Client.run_pdf_only (System.axios Examples.mock_world)
    (Examples.at_options_with (Examples.pdf_of_size 1024))
  = Client.run (System.axios Examples.mock_world)
      (Examples.at_options_with (Examples.pdf_of_size 1024)).
Proof.
  exact (earlier_version_agrees (System.axios Examples.mock_world)
           (Examples.at_options_with (Examples.pdf_of_size 1024))
           (Examples.pdf_of_size 1024) eq_refl eq_refl).
Defined.

Lemma upload_without_file (w : Server.World) :
  System.axios w "/api/upload" (Client.Form None)
  = Thrown (System.status_error 400 (Obj [("error", Str "No file uploaded")])).
Proof. reflexivity. Qed.

(** With no file chosen the current App refuses to start and sends
    nothing; the two earlier ones upload nothing, get 400 "No file
    uploaded" from the server and show the failure. *)
Theorem missing_file (w : Server.World) (s : Client.State) :
  Client.inputMode s = Client.pdf -> Client.file s = None ->
  (Client.cur (Client.run (System.axios w) s)
   = Client.setError "Please upload a PDF file first." s
   /\ Client.posts (Client.run (System.axios w) s) = [])
  /\ (Failed s (Client.run_pdf_only (System.axios w) s)
        (System.status_error 400 (Obj [("error", Str "No file uploaded")]))
      /\ Client.posts (Client.run_pdf_only (System.axios w) s)
         = [("/api/upload", Client.Form None)])
  /\ (Failed s (Client.run_first (System.axios w) s)
        (System.status_error 400 (Obj [("error", Str "No file uploaded")]))
      /\ Client.posts (Client.run_first (System.axios w) s)
         = [("/api/upload", Client.Form None)]).
Proof.
  intros Hmode Hfile. split; [|split].
  - unfold Client.run, Client.startProcess. cbn [Client.cur].
    rewrite Hmode, Hfile. split; reflexivity.
  - unfold Client.run_pdf_only, Client.startProcess_pdf_only, Client.uploadPDF,
      Client.post. cbn [Client.cur]. rewrite Hfile, upload_without_file.
    unfold Failed. repeat split; reflexivity.
  - unfold Client.run_first, Client.startProcess_first, Client.uploadPDF,
      Client.post. cbn [Client.cur]. rewrite Hfile, upload_without_file.
    unfold Failed. repeat split; reflexivity.
Qed.

(** The options step without a file, as no session of the current App reaches it. *)
Lemma missing_file_witness :
  Client.posts (Client.run (System.axios Examples.mock_world)
                  (Client.setStep 2 Client.initial)) = []
  /\ Client.posts (Client.run_first (System.axios Examples.mock_world)
                     (Client.setStep 2 Client.initial))
     = [("/api/upload", Client.Form None)].
Proof.
  pose proof (missing_file Examples.mock_world (Client.setStep 2 Client.initial)
                eq_refl eq_refl) as H.
  exact (conj (proj2 (proj1 H)) (proj2 (proj2 (proj2 H)))).
Defined.

(** ** The status indicator *)

(** The two labels of the first App after loading [/api/status] from this
    server: both "Connected" when a credential is configured, both "Mock"
    when none is. *)
Theorem status_indicator (w : Server.World) :
  Client.indicator (Client.load_apiStatus (System.fetch_json w "/api/status"))
  = if configured (Server.LLM_API_KEY w) || configured (Server.NANO_BANANA_API_KEY w)
    then Ok ("Connected", "Connected")
    else Ok ("Mock", "Mock").
Proof.
  rewrite <- API_KEY_configured.
  unfold System.fetch_json, Server.app. cbn [Server.req_method Server.req_path].
  change (System.path_of "/api/status") with "/api/status".
  cbn [String.eqb Ascii.eqb Bool.eqb]. unfold Server.status_route.
  cbn. now destruct (truthy (Server.API_KEY w)).
Qed.

(** ** What the selection keeps and what multer takes *)





Lemma inputs_ready_same (s s' : Client.State) :
  same_inputs s s' -> inputs_ready s -> inputs_ready s'.
Proof.
  unfold same_inputs, inputs_ready. intros (Hm & Hf & Ht & _).
  now rewrite Hm, Hf, Ht.
Qed.

Lemma continue_enabled_ready (s : Client.State) :
  Client.continue_disabled s = false -> inputs_ready s.
Proof.
  unfold Client.continue_disabled, inputs_ready.
  destruct (Client.inputMode s).
  - destruct (Client.file s) as [f|]; [eauto|discriminate].
  - intros H. apply Nat.ltb_ge in H. exact H.
Qed.

Lemma run_keeps_inputs (http : Client.Http) (s : Client.State) :
  same_inputs s (Client.cur (Client.run http s)).
Proof.
  destruct (starts s) eqn:Hstarts.
  - rewrite (run_started http s Hstarts). apply started_run_keeps_inputs.
  - destruct (run_refused http s Hstarts) as [msg ->].
    cbn. repeat split.
Qed.

Ltac before_options Hs :=
  cbn [Client.step Client.error Client.reset
       Client.setStep Client.setError Client.setStatus Client.setPdfText
       Client.setResultImage Client.setFile Client.setInputMode
       Client.setTextInput Client.setOptions Client.setShowAdvanced];
  split; intros ?; exfalso; lia.

Lemma reachable_inputs_ready (s : Client.State) :
  Client.reachable s ->
  (2 <= Client.step s -> inputs_ready s)
  /\ (Client.step s = 3 -> Client.error s <> "").
Proof.
  induction 1 as [|s ev s' Hreach IH Hev].
  - cbn. split; [lia|discriminate].
  - destruct IH as (Hready & Herror).
    destruct ev; cbn [Client.handle] in Hev.
    + destruct (Client.inputMode s); [|discriminate].
      destruct (Z.eqb_spec (Client.step s) 1) as [Hs|]; [|discriminate].
      injection Hev as <-.
      assert (Hkeep : Client.step (Client.handleFileUpload f s) = Client.step s).
      { unfold Client.handleFileUpload. destruct f as [f|]; [|auto].
        repeat match goal with
          | |- context [if ?b then _ else _] => destruct b
          end; auto. }
      rewrite Hkeep. split; intros ?; exfalso; lia.
    + destruct (Z.eqb_spec (Client.step s) 1) as [Hs|]; [|discriminate].
      injection Hev as <-. before_options Hs.
    + destruct (Client.inputMode s); [discriminate|].
      destruct (Z.eqb_spec (Client.step s) 1) as [Hs|]; [|discriminate].
      injection Hev as <-. before_options Hs.
    + destruct (Z.eqb_spec (Client.step s) 1) as [Hs|]; [|discriminate].
      destruct (Client.continue_disabled s) eqn:Hdis; [discriminate|].
      injection Hev as <-. split; [|discriminate].
      intros _. apply (inputs_ready_same s); [repeat split|].
      now apply continue_enabled_ready.
    + destruct (Z.eqb_spec (Client.step s) 2) as [Hs|]; [|discriminate].
      injection Hev as <-. before_options Hs.
    + destruct (Z.eqb_spec (Client.step s) 2) as [Hs|]; [|discriminate].
      injection Hev as <-.
      split; [|cbn; intros; exfalso; lia].
      intros _. assert (Hr : inputs_ready s) by (apply Hready; lia).
      exact Hr.
    + destruct (Z.eqb_spec (Client.step s) 2) as [Hs|]; [|discriminate].
      injection Hev as <-.
      split; [|cbn; intros; exfalso; lia].
      intros _. apply (inputs_ready_same s); [repeat split|]. apply Hready. lia.
    + destruct (Z.eqb_spec (Client.step s) 2) as [Hs|]; [|discriminate].
      injection Hev as <-. split.
      * intros _. apply (inputs_ready_same s); [apply run_keeps_inputs|].
        apply Hready. lia.
      * destruct (starts s) eqn:Hstarts.
        -- pose proof (started_run_atomic http s) as Hrun.
           rewrite <- (run_started http s Hstarts) in Hrun.
           destruct Hrun as ([Hc | [err Hf]] & _).
           ++ destruct Hc as (H4 & _). rewrite H4. discriminate.
           ++ destruct Hf as (_ & -> & _). discriminate.
        -- destruct (run_refused http s Hstarts) as [msg ->].
           cbn. intros; exfalso; lia.
    + destruct (Z.eqb_spec (Client.step s) 3) as [Hs|]; [|discriminate].
      destruct (negb _); [|discriminate].
      injection Hev as <-. split; [|discriminate].
      intros _. apply (inputs_ready_same s); [repeat split|]. apply Hready. lia.
    + destruct (Z.eqb_spec (Client.step s) 4) as [Hs|]; [|discriminate].
      injection Hev as <-. before_options Hs.
Qed.



(** On the options step of a session the chosen input is there: in PDF
    mode a file, so the first guard of [startProcess] never fires; in text
    mode a text of 100 characters or more, so the second guard fires only
    on such a text of white space alone. *)
Theorem guards_in_a_session (s : Client.State) :
  Client.reachable s -> 2 <= Client.step s ->
  inputs_ready s
  /\ (Client.inputMode s = Client.pdf -> starts s = true)
  /\ (starts s = false ->
      Client.inputMode s = Client.text
      /\ Client.blank (Client.textInput s) = true
      /\ (100 <= String.length (Client.textInput s))%nat).
Proof.
  intros Hreach Hstep.
  pose proof (proj1 (reachable_inputs_ready s Hreach) Hstep) as Hr.
  split; [exact Hr|].
  unfold inputs_ready in Hr. unfold starts.
  destruct (Client.inputMode s).
  - destruct Hr as [f ->]. split; [reflexivity|discriminate].
  - split; [discriminate|]. intros Hb. apply negb_false_iff in Hb. auto.
Qed.

(** A session in PDF mode on the options step. *)
Lemma guards_in_a_session_witness :
  match Client.play
          [Client.SelectFile (Some (Examples.pdf_of_size 1024));
           Client.Continue]
          Client.initial with
  | Some s => Client.step s = 2 /\ starts s = true
  | None => True
  end.
Proof.
  destruct (Client.play _ Client.initial) as [s|] eqn:Hplay; [|exact I].
  assert (Hs : Client.step s = 2 /\ Client.inputMode s = Client.pdf).
  { pose proof Hplay as Hval. vm_compute in Hval. now injection Hval as <-. }
  destruct Hs as [Hstep Hmode].
  split; [exact Hstep|].
  refine (proj1 (proj2 (guards_in_a_session s _ _)) Hmode).
  - exact (play_reachable _ _ _ Client.reach_initial Hplay).
  - rewrite Hstep. discriminate.
Defined.

(** ** The outcome of a run, stage by stage *)

Ltac replay :=
  repeat (cbn [Client.cur Client.trace Client.posts app negb fst snd];
          match goal with
          | H : ?x = _ |- context [match ?x with Ok _ => _ | Thrown _ => _ end] =>
              rewrite H
          | H : truthy ?v = _ |- context [if negb (truthy ?v) then _ else _] =>
              rewrite H
          end);
  cbn [Client.cur Client.trace Client.posts app negb fst snd].

Ltac start_replay Hstarts :=
  rewrite (run_started _ _ Hstarts);
  unfold sent, extraction_request, directive_request, artifact_request in *;
  unfold_run;
  match goal with
  | s : Client.State |- _ => destruct (Client.inputMode s)
  end;
  cbn [fst snd] in *; replay.

Lemma run_fails_at_extraction (http : Client.Http) (s : Client.State) (e : exn) :
  starts s = true ->
  sent http (extraction_request s) = Thrown e ->
  Failed s (Client.run http s) e
  /\ Client.posts (Client.run http s) = [extraction_request s].
Proof.
  intros Hstarts H1. start_replay Hstarts.
  all: split; [failed_with | reflexivity].
Qed.

Lemma run_fails_at_directive (http : Client.Http) (s : Client.State)
    (res1 t : value) (e : exn) :
  starts s = true ->
  sent http (extraction_request s) = Ok res1 -> get res1 "text" = Ok t ->
  sent http (directive_request s t) = Thrown e ->
  Failed s (Client.run http s) e
  /\ Client.posts (Client.run http s)
     = [extraction_request s; directive_request s t].
Proof.
  intros Hstarts H1 H2 H3. start_replay Hstarts.
  all: split; [failed_with | reflexivity].
Qed.



(** ** Client and server together *)

Lemma axios_routed (w : Server.World) (url : string) (p : Client.payload)
    (m : Server.M Server.response) :
  System.too_large p = false ->
  Server.app w (System.request_of url p) = Some m ->
  System.axios w url p = received (Server.outcome m)
  /\ fst (System.serve w url p) = Server.calls m.
Proof.
  intros Hsmall Hroute. unfold System.axios, System.serve, received.
  rewrite Hsmall, Hroute. destruct m as [l [resp|e]]; split; reflexivity.
Qed.


Lemma readable_pdf_uploaded (w : Server.World) (s : Client.State) (t : string) :
  readable_pdf w s t ->
  starts s = true
  /\ sent (System.axios w) (extraction_request s) = Ok (Obj [("text", Str t)]).
Proof.
  intros (f & Hmode & Hfile & Htype & Hsize & Hparse).
  unfold starts, sent, extraction_request. rewrite Hmode, Hfile.
  split; [reflexivity|]. cbn [fst snd].
  unfold System.axios, System.serve, System.too_large.
  change (Server.app w (System.request_of "/api/upload" (Client.Form (Some f))))
    with (Some (Server.upload_route w
                  (Some (Server.File (Client.type f) (Client.size f) (Client.bytes f))))).
  unfold Server.upload_route, Server.upload_single, Server.fileFilter,
    Server.limits_fileSize, Server.call_pdfParse.
  cbn [Server.mimetype Server.size Server.buffer].
  rewrite Htype. cbn [String.eqb Ascii.eqb Bool.eqb].
  destruct (Z.ltb_spec (10 * 1024 * 1024) (Client.size f)); [lia|].
  cbn [Server.lift Server.bind Server.try_catch app Server.mimetype
       Server.size Server.buffer].
  rewrite Hparse. reflexivity.
Qed.

Lemma directive_routed (w : Server.World) (s : Client.State) (t : string) :
  System.too_large (snd (directive_request s (Str t))) = false ->
  let body := [("text", Str t);
               ("audience", Str (Client.audience (Client.options s)));
               ("terms", Str (Client.terms (Client.options s)));
               ("focus", Str (Client.focus (Client.options s)));
               ("language", Str (Client.language (Client.options s)));
               ("styleNotes", Str (Client.styleNotes (Client.options s)))] in
  sent (System.axios w) (directive_request s (Str t))
  = received (Server.outcome (Server.generate_prompt_route w body))
  /\ fst (System.serve w (fst (directive_request s (Str t)))
            (snd (directive_request s (Str t))))
     = Server.calls (Server.generate_prompt_route w body).
Proof.
  intros Hsmall body. unfold sent. apply axios_routed; [exact Hsmall|].
  reflexivity.
Qed.





(** A PDF without text stops at the directive request. *)
Theorem empty_pdf_text_fails (w : Server.World) (s : Client.State) :
  readable_pdf w s "" ->
  System.too_large (snd (directive_request s (Str ""))) = false ->
  let r := Client.run (System.axios w) s in
  let q2 := directive_request s (Str "") in
  Failed s r (System.status_error 400
                (Obj [("error", Str "Missing required parameters")]))
  /\ Client.posts r = [extraction_request s; q2]
  /\ fst (System.serve w (fst q2) (snd q2)) = [].
Proof.
  intros Hpdf Hsmall2 r q2. subst r q2.
  destruct (readable_pdf_uploaded w s "" Hpdf) as [Hstarts H1].
  destruct (directive_routed w s "" Hsmall2) as [H2 Hcalls].
  rewrite generate_prompt_missing in H2, Hcalls by reflexivity.
  destruct (run_fails_at_directive (System.axios w) s _ (Str "") _ Hstarts H1
              eq_refl H2) as [Hfailed Hposts].
  repeat split; try apply Hfailed; assumption.
Qed.

(** A PDF in which the parser finds no text. *)
Lemma empty_pdf_text_fails_witness :
  Client.error
    (Client.cur (Client.run (System.axios Examples.scanned_world)
                   (Examples.at_options_with (Examples.pdf_of_size 1024))))
  = "An error occurred: Request failed with status code 400".
Proof.
  assert (Hpdf : readable_pdf Examples.scanned_world
                   (Examples.at_options_with (Examples.pdf_of_size 1024)) "").
  { exists (Examples.pdf_of_size 1024).
    repeat split; try reflexivity. vm_compute. discriminate. }
  pose proof (empty_pdf_text_fails Examples.scanned_world
                (Examples.at_options_with (Examples.pdf_of_size 1024))
                Hpdf eq_refl) as H.
  exact (proj1 (proj2 (proj1 H))).
Defined.







(** The first App sends no language and no style notes; against this
    server it shows what the current App shows. *)
Theorem first_version_same_screens (w : Server.World) (s : Client.State)
    (t : string) :
  readable_pdf w s t ->
  System.too_large (snd (directive_request s (Str t))) = false ->
  System.too_large
    (Client.Json [("text", Str t);
                  ("audience", Str (Client.audience (Client.options s)));
                  ("terms", Str (Client.terms (Client.options s)));
                  ("focus", Str (Client.focus (Client.options s)));
                  ("language", Undefined);
                  ("styleNotes", Undefined)]) = false ->
  Client.trace (Client.run_first (System.axios w) s)
  = Client.trace (Client.run (System.axios w) s)
  /\ Client.cur (Client.run_first (System.axios w) s)
     = Client.cur (Client.run (System.axios w) s).
Proof.
  intros Hpdf Hsmall6 Hsmall4.
  destruct (readable_pdf_uploaded w s t Hpdf) as [Hstarts H1].
  destruct (directive_routed w s t Hsmall6) as [H6 _].
  destruct (axios_routed w "/api/generate-prompt" _
              (Server.generate_prompt_route w
                 [("text", Str t);
                  ("audience", Str (Client.audience (Client.options s)));
                  ("terms", Str (Client.terms (Client.options s)));
                  ("focus", Str (Client.focus (Client.options s)))])
              Hsmall4 eq_refl) as [H4 _].
  rewrite (generate_prompt_reads_four w
             [("text", Str t);
              ("audience", Str (Client.audience (Client.options s)));
              ("terms", Str (Client.terms (Client.options s)));
              ("focus", Str (Client.focus (Client.options s)))]
             [("text", Str t);
              ("audience", Str (Client.audience (Client.options s)));
              ("terms", Str (Client.terms (Client.options s)));
              ("focus", Str (Client.focus (Client.options s)));
              ("language", Str (Client.language (Client.options s)));
              ("styleNotes", Str (Client.styleNotes (Client.options s)))]
             eq_refl eq_refl eq_refl eq_refl) in H4.
  rewrite (run_started _ _ Hstarts).
  destruct Hpdf as (f & Hmode & Hfile & _).
  unfold Client.run_first, Client.startProcess_first.
  unfold sent, extraction_request, directive_request in H1, H6.
  rewrite Hmode in H1. cbn [fst snd Client.cur] in *.
  unfold Client.pipeline. rewrite Hmode. unfold_run.
  cbn [Client.cur Client.trace Client.posts app negb fst snd].
  rewrite H1.
  cbn [Client.cur Client.trace Client.posts app negb fst snd get lookup
       String.eqb Ascii.eqb Bool.eqb].
  rewrite H4, H6.
  destruct (received _) as [res2|e2];
    cbn [Client.cur Client.trace Client.posts app negb fst snd];
    [|split; reflexivity].
  repeat run_step.
  all: split; reflexivity.
Qed.

(** Both versions on a PDF of 1KB without credential. *)
Lemma first_version_same_screens_witness :
  Client.cur (Client.run_first (System.axios Examples.mock_world)
                (Examples.at_options_with (Examples.pdf_of_size 1024)))
  = Client.cur (Client.run (System.axios Examples.mock_world)
                  (Examples.at_options_with (Examples.pdf_of_size 1024))).
Proof.
  assert (Hpdf : readable_pdf Examples.mock_world
                   (Examples.at_options_with (Examples.pdf_of_size 1024))
                   "%PDF-1.7").
  { exists (Examples.pdf_of_size 1024).
    repeat split; try reflexivity. vm_compute. discriminate. }
  exact (proj2 (first_version_same_screens Examples.mock_world
                  (Examples.at_options_with (Examples.pdf_of_size 1024))
                  "%PDF-1.7" Hpdf eq_refl eq_refl)).
Defined.

(** ** Start Over *)

(** Start Over, which the result view offers, goes back to the first step
    and clears the file, the text read, the image, the status and the
    error; it keeps the mode, the options and the typed text. So after a
    session in text mode Continue is enabled at once, on the text of the
    last run, and after a session in PDF mode it is disabled until a file
    is chosen again. *)
Theorem start_over_keeps_text (s s' : Client.State) :
  Client.reachable s -> Client.handle Client.StartOver s = Some s' ->
  Client.step s = 4 /\ Client.step s' = 1
  /\ Client.file s' = None /\ Client.pdfText s' = Str ""
  /\ Client.resultImage s' = Str "" /\ Client.status s' = ""
  /\ Client.error s' = ""
  /\ Client.inputMode s' = Client.inputMode s
  /\ Client.textInput s' = Client.textInput s
  /\ Client.options s' = Client.options s
  /\ Client.continue_disabled s'
     = match Client.inputMode s with
       | Client.pdf => true
       | Client.text => false
       end.
Proof.
  intros Hreach Hev. cbn [Client.handle] in Hev.
  destruct (Z.eqb_spec (Client.step s) 4) as [Hstep|]; [|discriminate].
  injection Hev as <-.
  assert (Hready : inputs_ready s)
    by (apply (proj1 (reachable_inputs_ready s Hreach)); lia).
  repeat (split; [first [exact Hstep | reflexivity]|]).
  unfold Client.continue_disabled, inputs_ready in *.
  cbn [Client.reset Client.inputMode Client.file Client.textInput
       Client.setStep Client.setError Client.setStatus Client.setPdfText
       Client.setResultImage Client.setFile].
  destruct (Client.inputMode s); [reflexivity|].
  now apply Nat.ltb_ge.
Qed.

(** Start Over after a run in PDF mode that completed. *)
Lemma start_over_keeps_text_witness :
  match Client.play
          [Client.SelectFile (Some (Examples.pdf_of_size 1024));
           Client.Continue;
           Client.Generate (System.axios Examples.mock_world)]
          Client.initial with
  | Some s =>
      match Client.handle Client.StartOver s with
      | Some s' => Client.file s' = None /\ Client.continue_disabled s' = true
      | None => False
      end
  | None => True
  end.
Proof.
  destruct (Client.play _ Client.initial) as [s|] eqn:Hplay; [|exact I].
  assert (Hs : Client.step s = 4 /\ Client.inputMode s = Client.pdf).
  { pose proof Hplay as Hval. vm_compute in Hval. injection Hval as Hval.
    rewrite <- Hval. split; reflexivity. }
  destruct Hs as [Hstep Hmode].
  destruct (Client.handle Client.StartOver s) as [s'|] eqn:Hev.
  - pose proof (start_over_keeps_text s s'
                  (play_reachable _ _ _ Client.reach_initial Hplay) Hev) as H.
    rewrite Hmode in H. split; apply H.
  - cbn [Client.handle] in Hev. rewrite Hstep in Hev. discriminate.
Defined.
